(** * IPython cell magics for Graphviz and TikZ: a shallow embedding

    The development follows the two modules of the repository,
    [graphviz.py] and [tikz.py].  Both shell out to external programs, so
    the embedding is a small exception-and-state monad over a model of the
    filesystem, with the behaviour of each external process handed in as
    an argument of the function that spawns it. *)

From Stdlib Require Import ZArith NArith List Lia.
From Stdlib Require Import Strings.String Strings.Ascii Strings.Byte.
From Stdlib Require Import DecimalString.
From stdpp Require Import gmap list fin_maps.
Import ListNotations.

Local Open Scope N_scope.

(** ** Text and bytes

    A Python [str] is a sequence of code points, a [bytes] object a
    sequence of octets.  The two are related by the strict UTF-8 codec,
    which is what [str.encode('utf-8')] and [bytes.decode('utf-8')] use. *)

Definition str := list N.
Definition bytes := list byte.

(** String literals of the source, which are all ASCII. *)
Definition lit (s : string) : str :=
  map N_of_ascii (list_ascii_of_string s).

(** [sep.join(parts)] *)
Fixpoint join (sep : str) (parts : list str) : str :=
  match parts with
  | [] => []
  | [p] => p
  | p :: rest => p ++ sep ++ join sep rest
  end.

Module Utf8.

Definition octet (n : N) : byte :=
  match Byte.of_N n with
  | Some b => b
  | None => x00
  end.

Definition is_surrogate (c : N) : bool := (0xD800 <=? c) && (c <=? 0xDFFF).

(** One code point; lone surrogates and values above U+10FFFF have no
    encoding ([UnicodeEncodeError]). *)
Definition encode_point (c : N) : option bytes :=
  if c <? 0x80 then Some [octet c]
  else if c <? 0x800 then
    Some [octet (0xC0 + c / 64); octet (0x80 + c mod 64)]
  else if c <? 0x10000 then
    if is_surrogate c then None
    else Some [octet (0xE0 + c / 4096); octet (0x80 + (c / 64) mod 64);
               octet (0x80 + c mod 64)]
  else if c <? 0x110000 then
    Some [octet (0xF0 + c / 262144); octet (0x80 + (c / 4096) mod 64);
          octet (0x80 + (c / 64) mod 64); octet (0x80 + c mod 64)]
  else None.

Fixpoint encode (s : str) : option bytes :=
  match s with
  | [] => Some []
  | c :: rest =>
      match encode_point c, encode rest with
      | Some b, Some bs => Some (b ++ bs)
      | _, _ => None
      end
  end.

(** Payload of a continuation octet [10xxxxxx]. *)
Definition continuation (b : byte) : option N :=
  let n := Byte.to_N b in
  if (0x80 <=? n) && (n <? 0xC0) then Some (n - 0x80) else None.

(** Strict decoding: truncated sequences, stray continuation octets,
    overlong forms, surrogates and values above U+10FFFF are rejected
    ([UnicodeDecodeError]). *)
Fixpoint decode (bs : bytes) : option str :=
  match bs with
  | [] => Some []
  | b0 :: t0 =>
      let n0 := Byte.to_N b0 in
      if n0 <? 0x80 then cons n0 <$> decode t0
      else if n0 <? 0xC0 then None
      else if n0 <? 0xE0 then
        match t0 with
        | b1 :: t1 =>
            match continuation b1 with
            | Some c1 =>
                let c := (n0 - 0xC0) * 64 + c1 in
                if 0x80 <=? c then cons c <$> decode t1 else None
            | None => None
            end
        | _ => None
        end
      else if n0 <? 0xF0 then
        match t0 with
        | b1 :: b2 :: t2 =>
            match continuation b1, continuation b2 with
            | Some c1, Some c2 =>
                let c := (n0 - 0xE0) * 4096 + c1 * 64 + c2 in
                if (0x800 <=? c) && negb (is_surrogate c)
                then cons c <$> decode t2 else None
            | _, _ => None
            end
        | _ => None
        end
      else if n0 <? 0xF8 then
        match t0 with
        | b1 :: b2 :: b3 :: t3 =>
            match continuation b1, continuation b2, continuation b3 with
            | Some c1, Some c2, Some c3 =>
                let c := (n0 - 0xF0) * 262144 + c1 * 4096 + c2 * 64 + c3 in
                if (0x10000 <=? c) && (c <? 0x110000)
                then cons c <$> decode t3 else None
            | _, _, _ => None
            end
        | _ => None
        end
      else None
  end.

End Utf8.

(** ** Exceptions

    The three exception classes of the repository, and the built-in ones
    that can escape from the modelled functions. *)

Inductive exn :=
| GraphvizError (command : list str) (returncode : Z) (stderr : str) (code : str)
| LatexError (command : list str) (returncode : Z) (stderr : str) (code : str)
| ConvertError (command : list str) (returncode : Z) (stderr : str)
| OSError (message : str)
| UnicodeEncodeError
| UnicodeDecodeError
| KeyError (key : str)
| ValueError
| NameError (name : str).

(** [except OSError] / [except IOError] (the same class in Python 3). *)
Definition is_OSError (e : exn) : bool :=
  match e with
  | OSError _ => true
  | _ => false
  end.

(** ** The world: a filesystem and a trace of what the program did to it *)

Abbreviation path := (list str).

Inductive node :=
| Dir
| File (content : bytes).

(** [Exec]: the program asked a process to be started, whether or not
    that succeeded; [Wrote]: it wrote a file; [Publish]: it handed a
    MIME bundle to the host display. *)
Inductive event :=
| Exec (argv : list str) (cwd : option path)
| Wrote (target : path) (content : bytes)
| Publish (data : list (str * str)) (metadata : list (str * str)).

Record world := World {
  files : gmap path node;
  trace : list event
}.

Definition set_files (f : gmap path node -> gmap path node) (w : world) : world :=
  {| files := f (files w); trace := trace w |}.

Definition record (e : event) (w : world) : world :=
  {| files := files w; trace := trace w ++ [e] |}.

(** [os.path.join(directory, name)] *)
Definition path_join (directory : path) (name : str) : path := directory ++ [name].

(** Splitting a path given as text at the slashes.  Empty components are
    dropped; every path is resolved against one root. *)
Fixpoint split_slash (s : str) (component : str) : list str :=
  match s with
  | [] => [rev component]
  | c :: rest =>
      if c =? 47 then rev component :: split_slash rest []
      else split_slash rest (c :: component)
  end.

Definition fspath (s : str) : path :=
  filter (fun component => component ≠ []) (split_slash s []).

Definition is_dir (fs : gmap path node) (p : path) : bool :=
  match fs !! p with
  | Some Dir => true
  | _ => false
  end.

(** A file can be opened for writing when it is not a directory and its
    parent directory exists. *)
Definition writable (fs : gmap path node) (p : path) : bool :=
  match p with
  | [] => false
  | _ =>
      negb (is_dir fs p) &&
      match removelast p with
      | [] => true
      | parent => is_dir fs parent
      end
  end.

(** The content of a regular file, if there is one at [p]. *)
Definition readable (fs : gmap path node) (p : path) : option bytes :=
  match fs !! p with
  | Some (File content) => Some content
  | _ => None
  end.

(** [shutil.rmtree]: the directory and everything below it. *)
Definition rmtree (directory : path) (fs : gmap path node) : gmap path node :=
  filter (fun entry => ¬ directory `prefix_of` entry.1) fs.

(** ** External processes

    A child either exits with a code or is killed by a signal;
    [subprocess] reports the latter as a negative return code. *)

Inductive status :=
| Exited (code : N)
| Signaled (signal : positive).

Definition returncode_of (s : status) : Z :=
  match s with
  | Exited code => Z.of_N code
  | Signaled signal => Z.neg signal
  end.

(** What one [subprocess.call] meets: the program cannot be started
    ([OSError]), or it runs, changes the filesystem and terminates. *)
Inductive child :=
| LaunchFails (error : str)
| Runs (exit : status) (effect : gmap path node -> gmap path node).

(** What one [Popen] with three pipes meets.  [communicates] tells whether
    [communicate] completes or raises [OSError]; in the latter case
    [stdout] and [stderr] are what is left to read from the pipes. *)
Inductive piped :=
| PipeLaunchFails (error : str)
| PipeRuns (communicates : bool) (stdout stderr : bytes) (exit : status).

(** ** The monad of Python statements *)

Inductive result (A : Type) :=
| Return (value : A)
| Raise (e : exn).
Arguments Return {A} value.
Arguments Raise {A} e.

Definition M (A : Type) : Type := world -> result A * world.

Definition ret {A} (a : A) : M A := fun w => (Return a, w).

Definition raise {A} (e : exn) : M A := fun w => (Raise e, w).

Definition bind {A B} (m : M A) (k : A -> M B) : M B :=
  fun w =>
    match m w with
    | (Return a, w') => k a w'
    | (Raise e, w') => (Raise e, w')
    end.

Declare Scope py_scope.
Delimit Scope py_scope with py.
Notation "x <- m ;; k" := (bind m (fun x => k))
  (at level 100, m at next level, right associativity) : py_scope.
Notation "m ;;; k" := (bind m (fun _ => k))
  (at level 100, right associativity) : py_scope.
Local Open Scope py_scope.

(** [try: body / except <handles> as error: handler] *)
Definition try_except {A} (body : M A) (handles : exn -> bool)
    (handler : exn -> M A) : M A :=
  fun w =>
    match body w with
    | (Raise e, w') => if handles e then handler e w' else (Raise e, w')
    | returned => returned
    end.

(** Lifting the codec: a failure is the corresponding exception. *)
Definition encode_utf8 (s : str) : M bytes :=
  match Utf8.encode s with
  | Some b => ret b
  | None => raise UnicodeEncodeError
  end.

Definition decode_utf8 (b : bytes) : M str :=
  match Utf8.decode b with
  | Some s => ret s
  | None => raise UnicodeDecodeError
  end.

(** [open(p, 'wb')]: creates or truncates the file. *)
Definition open_wb (p : path) : M unit :=
  fun w =>
    if writable (files w) p
    then (Return tt, set_files (insert p (File [])) w)
    else (Raise (OSError (lit "cannot open file for writing")), w).

(** [f.write(data)] on a file opened with [open_wb]. *)
Definition file_write (p : path) (data : bytes) : M unit :=
  fun w => (Return tt, record (Wrote p data) (set_files (insert p (File data)) w)).

(** [open(p, 'rb').read()] *)
Definition read_rb (p : path) : M bytes :=
  fun w =>
    match readable (files w) p with
    | Some content => (Return content, w)
    | None => (Raise (OSError (lit "cannot open file for reading")), w)
    end.

(** [subprocess.call(command, cwd=cwd)] *)
Definition call (c : child) (command : list str) (cwd : path) : M Z :=
  fun w =>
    let w := record (Exec command (Some cwd)) w in
    match c with
    | LaunchFails error => (Raise (OSError error), w)
    | Runs exit effect => (Return (returncode_of exit), set_files effect w)
    end.

(** [with TemporaryDirectory() as tempdir: body].  The name [tempdir] is
    the one [mkdtemp] picks; the directory is removed again however the
    body is left.  Creating and removing the directory are taken to
    succeed. *)
Definition TemporaryDirectory {A} (tempdir : path) (body : M A) : M A :=
  fun w =>
    let (r, w') := body (set_files (insert tempdir Dir) w) in
    (r, set_files (rmtree tempdir) w').

(** [mkdtemp] hands out a name below which nothing exists yet. *)
Definition fresh_dir (tempdir : path) (w : world) : Prop :=
  ∀ q, tempdir `prefix_of` q → files w !! q = None.

(** What a function hands back to its caller. *)
Inductive payload :=
| Str (s : str)
| Bytes (b : bytes).

(** Host display objects, [IPython.core.display.SVG] and [Image]. *)
Inductive displayable :=
| display_SVG (data : payload)
| display_Image (data : payload).

(** ** graphviz.py *)

Module Graphviz.

Inductive Command := DOT | NEATO | FDP | TWOPI | CIRCO.

Definition Command_value (c : Command) : str :=
  match c with
  | DOT => lit "dot"
  | NEATO => lit "neato"
  | FDP => lit "fdp"
  | TWOPI => lit "twopi"
  | CIRCO => lit "circo"
  end.

Inductive Format := SVG | PNG | PDF | PS.

Definition Format_value (f : Format) : str :=
  match f with
  | SVG => lit "svg"
  | PNG => lit "png"
  | PDF => lit "pdf"
  | PS => lit "ps"
  end.

Definition _FORMAT_TO_DISPLAY (f : Format) : option (payload -> displayable) :=
  match f with
  | SVG => Some display_SVG
  | PNG => Some display_Image
  | _ => None
  end.

(** [Popen(command, stdin=PIPE, stderr=PIPE, stdout=PIPE)] *)
Definition Popen (p : piped) (command : list str) : M (bool * bytes * bytes * status) :=
  fun w =>
    let w := record (Exec command None) w in
    match p with
    | PipeLaunchFails error => (Raise (OSError error), w)
    | PipeRuns communicates stdout stderr exit =>
        (Return (communicates, stdout, stderr, exit), w)
    end.

(** [process.communicate(input)] *)
Definition communicate (process : bool * bytes * bytes * status)
    (input : bytes) : M (bytes * bytes) :=
  let '(communicates, stdout, stderr, _) := process in
  if communicates then ret (stdout, stderr)
  else raise (OSError (lit "communicate failed")).

(** [process.stdout.read(), process.stderr.read()] followed by
    [process.wait()] *)
Definition drain (process : bool * bytes * bytes * status) : M (bytes * bytes) :=
  let '(_, stdout, stderr, _) := process in ret (stdout, stderr).

Definition returncode (process : bool * bytes * bytes * status) : Z :=
  let '(_, _, _, exit) := process in returncode_of exit.

Definition graphviz (p : piped) (code : str) (options : list str)
    (fmt : Format) (cmd : Command) : M payload :=
  let command := [Command_value cmd] ++ options ++ [lit "-T"; Format_value fmt] in
  process <- Popen p command ;;
  streams <- try_except
               (input <- encode_utf8 code ;; communicate process input)
               is_OSError
               (fun error => drain process) ;;
  let '(stdout, stderr) := streams in
  if negb (returncode process =? 0)%Z then
    stderr <- decode_utf8 stderr ;;
    raise (GraphvizError command (returncode process) stderr code)
  else
    match fmt with
    | SVG => text <- decode_utf8 stdout ;; ret (Str text)
    | _ => ret (Bytes stdout)
    end.

(** The parsed magic line: [--format] and [--command] are restricted by
    their [choices], [options] is free. *)
Inductive format_choice := choice_png | choice_svg.

Record arguments := {
  format : format_choice;
  command : Command;
  options : list str
}.

(** [Format(args.format)] *)
Definition Format_of_choice (c : format_choice) : Format :=
  match c with
  | choice_png => PNG
  | choice_svg => SVG
  end.

(** [GraphvizMagics.graphviz], after [parse_argstring] *)
Definition GraphvizMagics_graphviz (p : piped) (args : arguments)
    (cell : str) : M displayable :=
  let fmt := Format_of_choice (format args) in
  let cmd := command args in
  output <- graphviz p cell (options args) fmt cmd ;;
  match _FORMAT_TO_DISPLAY fmt with
  | Some constructor => ret (constructor output)
  | None => raise (KeyError (Format_value fmt))
  end.

End Graphviz.

(** ** string.Template

    [Template.substitute] scans the template once, from left to right:
    [$$] is an escaped dollar, [$name] and [${name}] are looked up in the
    mapping ([KeyError] when missing), any other dollar is a [ValueError].
    Substituted values are not scanned again. *)

Module Template.

Inductive state :=
| Literal
| Dollar
| Named (name : str)
| Braced (name : str).

Definition id_start (c : N) : bool :=
  (c =? 95) || ((65 <=? c) && (c <=? 90)) || ((97 <=? c) && (c <=? 122)).

Definition id_char (c : N) : bool :=
  id_start c || ((48 <=? c) && (c <=? 57)).

Fixpoint get (mapping : list (str * str)) (key : str) : result str :=
  match mapping with
  | [] => Raise (KeyError key)
  | (k, v) :: rest => if bool_decide (k = key) then Return v else get rest key
  end.

Definition emit (v : str) (rest : result str) : result str :=
  match rest with
  | Return s => Return (v ++ s)
  | Raise e => Raise e
  end.

Definition and_then (v : result str) (k : str -> result str) : result str :=
  match v with
  | Return s => k s
  | Raise e => Raise e
  end.

(** The accumulated [name] is kept in reverse. *)
Fixpoint scan (mapping : list (str * str)) (st : state) (template : str)
    : result str :=
  match template with
  | [] =>
      match st with
      | Literal => Return []
      | Dollar => Raise ValueError
      | Named name => get mapping (rev name)
      | Braced _ => Raise ValueError
      end
  | c :: rest =>
      match st with
      | Literal =>
          if c =? 36 then scan mapping Dollar rest
          else emit [c] (scan mapping Literal rest)
      | Dollar =>
          if c =? 36 then emit [36] (scan mapping Literal rest)
          else if c =? 123 then scan mapping (Braced []) rest
          else if id_start c then scan mapping (Named [c]) rest
          else Raise ValueError
      | Named name =>
          if id_char c then scan mapping (Named (c :: name)) rest
          else
            and_then (get mapping (rev name)) (fun v =>
              emit v (if c =? 36 then scan mapping Dollar rest
                      else emit [c] (scan mapping Literal rest)))
      | Braced name =>
          if c =? 125 then
            match name with
            | [] => Raise ValueError
            | _ => and_then (get mapping (rev name)) (fun v =>
                     emit v (scan mapping Literal rest))
            end
          else if match name with [] => id_start c | _ => id_char c end
          then scan mapping (Braced (c :: name)) rest
          else Raise ValueError
      end
  end.

Definition substitute (template : str) (mapping : list (str * str)) : M str :=
  fun w => (scan mapping Literal template, w).

End Template.

(** ** tikz.py *)

Module Tikz.

Definition DEFAULT_LIBRARIES : list str :=
  map lit ["arrows"; "snakes"; "backgrounds"; "patterns"; "matrix";
           "shapes"; "fit"; "calc"; "shadows"; "plotmarks"]%string.

Definition DEFAULT_PDFLATEX : list str :=
  map lit ["pdflatex"; "-shell-escape"; "-interaction=nonstopmode"]%string.
Definition DEFAULT_PDF2SVG : list str := map lit ["pdf2svg"]%string.
Definition DEFAULT_PDF2PNG : list str :=
  map lit ["convert"; "-density"; "300"]%string.

Definition latex_template : str := lit "
\documentclass{article}

\usepackage[utf8]{inputenc}
\usepackage[T1]{fontenc}

\usepackage{amsmath}
\usepackage{amsfonts}
\usepackage{amssymb}

$packages

\usepackage{tikz}

$libraries

\usepackage[graphics,tightpage,active]{preview}

\PreviewEnvironment{tikzpicture}
\PreviewEnvironment{equation}
\PreviewEnvironment{equation*}

\newlength{\imagewidth}
\newlength{\imagescale}

\pagestyle{empty}
\thispagestyle{empty}

\begin{document}
$code
\end{document}".

Definition tikz_picture_template : str := lit "
\begin{tikzpicture}[$options]
$code
\end{tikzpicture}
".

Inductive Format := SVG | PNG | PDF.

(** [str(error)] for the [OSError] of a failed launch *)
Definition str_of_error (e : exn) : str :=
  match e with
  | OSError message => message
  | _ => []
  end.

(** [if returncode:] *)
Definition truthy (returncode : Z) : bool := negb (returncode =? 0)%Z.

Definition run_latex (tempdir : path) (c : child) (code : str)
    (command : list str) : M bytes :=
  TemporaryDirectory tempdir (
    open_wb (path_join tempdir (lit "code.tex")) ;;;
    source <- encode_utf8 code ;;
    file_write (path_join tempdir (lit "code.tex")) source ;;;
    let command := command ++ [lit "code.tex"] in
    returncode <- try_except (call c command tempdir) is_OSError
                    (fun error =>
                       raise (LatexError command (-1) (str_of_error error) code)) ;;
    if truthy returncode then
      error <- try_except
                 (log <- read_rb (path_join tempdir (lit "code.log")) ;;
                  decode_utf8 log)
                 is_OSError
                 (fun _ => ret (lit "no log file created")) ;;
      raise (LatexError command returncode error code)
    else
      try_except
        (read_rb (path_join tempdir (lit "code.pdf")))
        is_OSError
        (fun _ => raise (LatexError command returncode (lit "no output created") code))).

Definition convert_pdf2svg (tempdir : path) (c : child) (pdf_content : bytes)
    (command : list str) : M str :=
  TemporaryDirectory tempdir (
    open_wb (path_join tempdir (lit "inpdf.pdf")) ;;;
    file_write (path_join tempdir (lit "inpdf.pdf")) pdf_content ;;;
    let command := command ++ [lit "inpdf.pdf"; lit "outsvg.svg"] in
    returncode <- try_except (call c command tempdir) is_OSError
                    (fun error =>
                       raise (ConvertError command (-1) (str_of_error error))) ;;
    if truthy returncode then
      raise (ConvertError command (-1) [])
    else
      try_except
        (svg <- read_rb (path_join tempdir (lit "outsvg.svg")) ;;
         decode_utf8 svg)
        is_OSError
        (fun _ => raise (ConvertError command returncode (lit "no output created")))).

Definition convert_pdf2png (tempdir : path) (c : child) (pdf_content : bytes)
    (command : list str) : M bytes :=
  TemporaryDirectory tempdir (
    open_wb (path_join tempdir (lit "inpdf.pdf")) ;;;
    file_write (path_join tempdir (lit "inpdf.pdf")) pdf_content ;;;
    let command := command ++ [lit "inpdf.pdf"; lit "outpng.png"] in
    returncode <- try_except (call c command tempdir) is_OSError
                    (fun error =>
                       raise (ConvertError command (-1) (str_of_error error))) ;;
    if truthy returncode then
      raise (ConvertError command (-1) [])
    else
      try_except
        (read_rb (path_join tempdir (lit "outpng.png")))
        is_OSError
        (fun _ => raise (ConvertError command returncode (lit "no output created")))).

(** The magic line as typed: an option that was not given is [None]. *)
Inductive format_choice := choice_png | choice_svg.

Record magic_line := {
  given_format : option format_choice;
  given_library : option (list str);
  given_package : option (list str);
  given_options : option (list str);
  given_save : option str
}.

Record arguments := {
  format : format_choice;
  library : list str;
  package : list str;
  options : list str;
  save : option str
}.

(** [magic_arguments.parse_argstring]: the defaults of the decorators. *)
Definition parse_argstring (line : magic_line) : arguments :=
  {| format := default choice_svg (given_format line);
     library := default DEFAULT_LIBRARIES (given_library line);
     package := default [] (given_package line);
     options := default [] (given_options line);
     save := given_save line |}.

(** [Format(args.format)] *)
Definition Format_of_choice (c : format_choice) : Format :=
  match c with
  | choice_png => PNG
  | choice_svg => SVG
  end.

Definition usepackage (package : str) : str :=
  lit "\usepackage{" ++ package ++ lit "}".

Definition usetikzlibrary (library : str) : str :=
  lit "\usetikzlibrary{" ++ library ++ lit "}".

(** The two loops that append one directive per entry. *)
Definition latex_packages (args : arguments) : list str :=
  fold_left (fun latex_packages package => latex_packages ++ [usepackage package])
    (package args) [].

Definition tikz_libraries (args : arguments) : list str :=
  fold_left (fun tikz_libraries library => tikz_libraries ++ [usetikzlibrary library])
    (library args ++ DEFAULT_LIBRARIES) [].

(** [displaypub.publish_display_data(data=..., metadata=...)] *)
Definition publish_display_data (data metadata : list (str * str)) : M unit :=
  fun w => (Return tt, record (Publish data metadata) w).

(** [if args.save:] holds for a non-empty string only. *)
Definition save_target (args : arguments) : option str :=
  match save args with
  | Some [] => None
  | given => given
  end.

(** [TikzMagics.tikz].  [run_latex] and the converter each get their own
    temporary directory and their own child process.  In the PNG branch
    the callee [display.Image] is evaluated before its argument, and
    [tikz.py] binds no name [display] (it imports [displaypub] only):
    the branch ends in [NameError] before [convert_pdf2png] is called. *)
Definition tikz (latex_dir : path) (latex : child)
    (convert_dir : path) (converter : child)
    (line : magic_line) (cell : str) : M (option displayable) :=
  let args := parse_argstring line in
  let fmt := Format_of_choice (format args) in
  let tikz_options := join (lit " ") (options args) in
  tikz_picture <- Template.substitute tikz_picture_template
                    [(lit "options", tikz_options); (lit "code", cell)] ;;
  latex_document <- Template.substitute latex_template
                      [(lit "packages", join [10] (latex_packages args));
                       (lit "libraries", join [10] (tikz_libraries args));
                       (lit "code", tikz_picture)] ;;
  pdf_content <- run_latex latex_dir latex latex_document DEFAULT_PDFLATEX ;;
  match save_target args with
  | Some filename =>
      open_wb (fspath filename) ;;; file_write (fspath filename) pdf_content
  | None => ret tt
  end ;;;
  match fmt with
  | SVG =>
      svg <- convert_pdf2svg convert_dir converter pdf_content DEFAULT_PDF2SVG ;;
      publish_display_data [(lit "image/svg+xml", svg)]
                           [(lit "isolated", lit "true")] ;;;
      ret None
  | PNG => raise (NameError (lit "display"))
  | PDF => ret None
  end.

End Tikz.

(** ** Vocabulary of the statements *)

(** The files a file-based invoker has put in place when it starts its
    child: the temporary directory and the one input file in it. *)
Definition staged (tempdir : path) (name : str) (content : bytes)
    (fs : gmap path node) : gmap path node :=
  <[path_join tempdir name := File content]> (<[tempdir := Dir]> fs).

(** The world at that moment, the launch recorded. *)
Definition launched_in (tempdir : path) (name : str) (content : bytes)
    (command : list str) (w : world) : world :=
  {| files := staged tempdir name content (files w);
     trace := trace w ++ [Wrote (path_join tempdir name) content;
                          Exec command (Some tempdir)] |}.

(** The world after the temporary directory has been removed. *)
Definition cleaned (tempdir : path) (w : world) : world :=
  set_files (rmtree tempdir) w.

(** The argument vector [graphviz] builds. *)
Definition graphviz_command (cmd : Graphviz.Command) (options : list str)
    (fmt : Graphviz.Format) : list str :=
  [Graphviz.Command_value cmd] ++ options ++ [lit "-T"; Graphviz.Format_value fmt].

(** How a call ended. *)
Definition returns {A} (r : result A) : Prop :=
  match r with
  | Return _ => True
  | Raise _ => False
  end.

Definition raises_GraphvizError {A} (r : result A) : Prop :=
  match r with
  | Raise (GraphvizError _ _ _ _) => True
  | _ => False
  end.


Definition raises_ConvertError {A} (r : result A) : Prop :=
  match r with
  | Raise (ConvertError _ _ _) => True
  | _ => False
  end.






(** Equality of texts is decidable; used to count directives. *)
Definition str_eq_dec : ∀ a b : str, {a = b} + {a ≠ b} :=
  List.list_eq_dec BinNat.N.eq_dec.

(** The launch of one of the two PDF converters. *)
Definition conversion_command (argv : list str) : Prop :=
  argv = Tikz.DEFAULT_PDF2SVG ++ [lit "inpdf.pdf"; lit "outsvg.svg"] ∨
  argv = Tikz.DEFAULT_PDF2PNG ++ [lit "inpdf.pdf"; lit "outpng.png"].

Definition conversion_event (e : event) : Prop :=
  match e with
  | Exec argv _ => conversion_command argv
  | _ => False
  end.

(** A child that does not touch the file at [p]. *)
Definition leaves_alone (c : child) (p : path) : Prop :=
  match c with
  | LaunchFails _ => True
  | Runs _ effect => ∀ fs, effect fs !! p = fs !! p
  end.

(** Sample inputs: an empty filesystem, a temporary directory, and
    children that write one file or nothing. *)
Definition empty_world : world := {| files := ∅; trace := [] |}.

Definition tmpdir : path := [lit "tmp"; lit "tmpq8z1"].

Definition writes (p : path) (content : bytes)
    : gmap path node -> gmap path node :=
  insert p (File content).

Definition idle : gmap path node -> gmap path node := fun fs => fs.

(** ASCII bytes literals, as in [b'...']. *)
Definition blit (s : string) : bytes := list_byte_of_string s.

(** A child of [graphviz] that answers with a small SVG document, and a
    child of the file-based invokers that leaves every expected output
    file in its working directory. *)
Definition dot_ok : piped :=
  PipeRuns true (blit "<svg>ok</svg>") [] (Exited 0).

Definition produces_all : child :=
  Runs (Exited 0)
    (fun fs =>
       writes (path_join tmpdir (lit "code.pdf")) (blit "%PDF-1.5")
         (writes (path_join tmpdir (lit "outsvg.svg")) (blit "<svg/>")
            (writes (path_join tmpdir (lit "outpng.png")) [x89; x50; x4e; x47] fs))).

(** A second temporary directory, a converter that leaves [outsvg.svg]
    there, and a magic line on which only the format and the file to
    save to may be given. *)
Definition tmpdir' : path := [lit "tmp"; lit "tmpw3k7"].

Definition converts_ok : child :=
  Runs (Exited 0) (writes (path_join tmpdir' (lit "outsvg.svg")) (blit "<svg/>")).

Definition short_line (fmt : option Tikz.format_choice) (filename : option str)
    : Tikz.magic_line :=
  {| Tikz.given_format := fmt;
     Tikz.given_library := None;
     Tikz.given_package := None;
     Tikz.given_options := None;
     Tikz.given_save := filename |}.

(** ** Further parts of the two modules

    The enum lookups and argument choices of the two magics, the
    [__str__] methods of the three exception classes, and the text of
    the document the TikZ magic assembles. *)

(** [Enum(value)]: the member with that value, else [ValueError]. *)
Definition lookup_member {E} (value_of : E -> str) (members : list E)
    (value : str) : result E :=
  match find (fun member => bool_decide (value_of member = value)) members with
  | Some member => Return member
  | None => Raise ValueError
  end.

Module GraphvizArguments.

Definition Command_members : list Graphviz.Command :=
  [Graphviz.DOT; Graphviz.NEATO; Graphviz.FDP; Graphviz.TWOPI; Graphviz.CIRCO].

Definition Format_members : list Graphviz.Format :=
  [Graphviz.SVG; Graphviz.PNG; Graphviz.PDF; Graphviz.PS].

(** [Command(args.command)] and [Format(args.format)] *)
Definition Command_of_value : str -> result Graphviz.Command :=
  lookup_member Graphviz.Command_value Command_members.

Definition Format_of_value : str -> result Graphviz.Format :=
  lookup_member Graphviz.Format_value Format_members.

(** The [choices] of [--format] and [--command]. *)
Definition format_choices : list str := [lit "png"; lit "svg"].

Definition command_choices : list str :=
  [lit "dot"; lit "neato"; lit "fdp"; lit "circo"; lit "twopi"].

End GraphvizArguments.

Module TikzArguments.

Definition Format_value (f : Tikz.Format) : str :=
  match f with
  | Tikz.SVG => lit "svg"
  | Tikz.PNG => lit "png"
  | Tikz.PDF => lit "pdf"
  end.

Definition Format_members : list Tikz.Format := [Tikz.SVG; Tikz.PNG; Tikz.PDF].

Definition Format_of_value : str -> result Tikz.Format :=
  lookup_member Format_value Format_members.

Definition format_choices : list str := [lit "png"; lit "svg"].

End TikzArguments.

(** [str.isspace] for one code point: the whitespace of [str.strip()]. *)
Definition isspace (c : N) : bool :=
  ((0x09 <=? c) && (c <=? 0x0D)) || ((0x1C <=? c) && (c <=? 0x20)) ||
  (c =? 0x85) || (c =? 0xA0) || (c =? 0x1680) ||
  ((0x2000 <=? c) && (c <=? 0x200A)) ||
  (c =? 0x2028) || (c =? 0x2029) || (c =? 0x202F) || (c =? 0x205F) ||
  (c =? 0x3000).

Fixpoint lstrip (s : str) : str :=
  match s with
  | [] => []
  | c :: rest => if isspace c then lstrip rest else s
  end.

Definition rstrip (s : str) : str := rev (lstrip (rev s)).

(** [s.strip()] *)
Definition strip (s : str) : str := rstrip (lstrip s).

(** [str(n)] for an integer: decimal digits, with a minus sign when
    negative. *)
Definition str_of_int (n : Z) : str :=
  lit (NilZero.string_of_int (Z.to_int n)).

(** [GraphvizError.__str__] and [LatexError.__str__], which are the same
    text, and [ConvertError.__str__]. *)
Definition GraphvizError_str (command : list str) (returncode : Z)
    (stderr code : str) : str :=
  join [10] [lit "[command]"; join (lit " ") command;
             lit "[returncode]"; str_of_int returncode;
             lit "[stderr]"; strip stderr;
             lit "[code]"; strip code].

Definition LatexError_str (command : list str) (returncode : Z)
    (stderr code : str) : str :=
  join [10] [lit "[command]"; join (lit " ") command;
             lit "[returncode]"; str_of_int returncode;
             lit "[stderr]"; strip stderr;
             lit "[code]"; strip code].

Definition ConvertError_str (command : list str) (returncode : Z)
    (stderr : str) : str :=
  join [10] [lit "[command]"; join (lit " ") command;
             lit "[returncode]"; str_of_int returncode;
             lit "[stderr]"; strip stderr].

(** [str(e)] for the exceptions of the repository. *)
Definition __str__ (e : exn) : option str :=
  match e with
  | GraphvizError command returncode stderr code =>
      Some (GraphvizError_str command returncode stderr code)
  | LatexError command returncode stderr code =>
      Some (LatexError_str command returncode stderr code)
  | ConvertError command returncode stderr =>
      Some (ConvertError_str command returncode stderr)
  | _ => None
  end.

(** The text the TikZ magic hands to LaTeX, written out in full: the
    preamble, one [\usepackage{name}] per package, one
    [\usetikzlibrary{name}] per library, and the picture. *)
Definition tikz_picture_text (args : Tikz.arguments) (cell : str) : str :=
  lit "
\begin{tikzpicture}[" ++ join (lit " ") (Tikz.options args) ++ lit "]
" ++ cell ++ lit "
\end{tikzpicture}
".

Definition tikz_document (args : Tikz.arguments) (cell : str) : str :=
  lit "
\documentclass{article}

\usepackage[utf8]{inputenc}
\usepackage[T1]{fontenc}

\usepackage{amsmath}
\usepackage{amsfonts}
\usepackage{amssymb}

" ++ join [10] (map (fun package => lit "\usepackage{" ++ package ++ lit "}")
                  (Tikz.package args)) ++ lit "

\usepackage{tikz}

" ++ join [10] (map (fun library => lit "\usetikzlibrary{" ++ library ++ lit "}")
                  (Tikz.library args ++ Tikz.DEFAULT_LIBRARIES)) ++ lit "

\usepackage[graphics,tightpage,active]{preview}

\PreviewEnvironment{tikzpicture}
\PreviewEnvironment{equation}
\PreviewEnvironment{equation*}

\newlength{\imagewidth}
\newlength{\imagescale}

\pagestyle{empty}
\thispagestyle{empty}

\begin{document}
" ++ tikz_picture_text args cell ++ lit "
\end{document}".

(** The rest of the TikZ magic, once LaTeX has produced the PDF. *)
Definition tikz_after_latex (convert_dir : path) (converter : child)
    (args : Tikz.arguments) (pdf_content : bytes) : M (option displayable) :=
  (match Tikz.save_target args with
   | Some filename =>
       open_wb (fspath filename) ;;; file_write (fspath filename) pdf_content
   | None => ret tt
   end ;;;
   match Tikz.Format_of_choice (Tikz.format args) with
   | Tikz.SVG =>
       svg <- Tikz.convert_pdf2svg convert_dir converter pdf_content
                Tikz.DEFAULT_PDF2SVG ;;
       Tikz.publish_display_data [(lit "image/svg+xml", svg)]
                                 [(lit "isolated", lit "true")] ;;;
       ret None
   | Tikz.PNG => raise (NameError (lit "display"))
   | Tikz.PDF => ret None
   end)%py.

(** A child that copies one file of its working directory to another
    name, like [cp]. *)
Definition copies (source target : path)
    : gmap path node -> gmap path node :=
  fun fs =>
    match fs !! source with
    | Some content => <[target := content]> fs
    | None => fs
    end.

(** A text no UTF-8 encoder accepts: a lone surrogate. *)
Definition lone_surrogate : str := [0xD800].

(** ** Sanity checks of the codec and of the template engine *)

Example utf8_encode_ascii :
  Utf8.encode (lit "a->b") = Some [x61; x2d; x3e; x62].
Proof. reflexivity. Qed.

Example utf8_encode_euro : Utf8.encode [0x20AC] = Some [xe2; x82; xac].
Proof. reflexivity. Qed.

Example utf8_decode_euro : Utf8.decode [xe2; x82; xac] = Some [0x20AC].
Proof. reflexivity. Qed.

Example utf8_decode_astral :
  Utf8.decode [xf0; x9f; x98; x80; x21] = Some [0x1F600; 0x21].
Proof. reflexivity. Qed.

Example utf8_decode_stray : Utf8.decode [xff] = None.
Proof. reflexivity. Qed.

Example utf8_decode_overlong : Utf8.decode [xc0; x80] = None.
Proof. reflexivity. Qed.

Example utf8_encode_surrogate : Utf8.encode [0xD800] = None.
Proof. reflexivity. Qed.

Example substitute_simple :
  Template.scan [(lit "who", lit "world")] Template.Literal (lit "hello $who!")
  = Return (lit "hello world!").
Proof. reflexivity. Qed.

Example substitute_braced_escaped :
  Template.scan [(lit "n", lit "5")] Template.Literal (lit "$$${n}$n")
  = Return (lit "$55").
Proof. reflexivity. Qed.

Example substitute_missing :
  Template.scan [] Template.Literal (lit "$who") = Raise (KeyError (lit "who")).
Proof. reflexivity. Qed.

Example substitute_invalid :
  Template.scan [] Template.Literal (lit "100 $") = Raise ValueError.
Proof. reflexivity. Qed.

(** ** The codec

    Decoding undoes encoding: whatever [encode] accepts, [decode] reads
    back as the same text. *)

Lemma octet_to_N n : n < 256 → Byte.to_N (Utf8.octet n) = n.
Proof.
  intros Hn. unfold Utf8.octet. destruct (Byte.of_N n) as [b|] eqn:E.
  - apply Byte.to_of_N. exact E.
  - apply Byte.of_N_None_iff in E. lia.
Qed.

Lemma continuation_octet r :
  r < 64 → Utf8.continuation (Utf8.octet (0x80 + r)) = Some r.
Proof.
  intros Hr. unfold Utf8.continuation. rewrite octet_to_N by lia.
  replace (0x80 <=? 0x80 + r) with true by (symmetry; apply N.leb_le; lia).
  replace (0x80 + r <? 0xC0) with true by (symmetry; apply N.ltb_lt; lia).
  cbn [andb]. f_equal. lia.
Qed.

Ltac decide_comparisons :=
  repeat match goal with
    | |- context [?a <? ?b] =>
        first [ replace (a <? b) with true by (symmetry; apply N.ltb_lt; lia)
              | replace (a <? b) with false by (symmetry; apply N.ltb_ge; lia) ]
    | |- context [?a <=? ?b] =>
        first [ replace (a <=? b) with true by (symmetry; apply N.leb_le; lia)
              | replace (a <=? b) with false by (symmetry; apply N.leb_gt; lia) ]
    end.

Ltac decode_head :=
  cbn [app];
  match goal with
  | |- Utf8.decode (?b0 :: ?t0) = _ =>
      change (Utf8.decode (b0 :: t0)) with
        (let n0 := Byte.to_N b0 in
         if n0 <? 0x80 then cons n0 <$> Utf8.decode t0
         else if n0 <? 0xC0 then None
         else if n0 <? 0xE0 then
           match t0 with
           | b1 :: t1 =>
               match Utf8.continuation b1 with
               | Some c1 =>
                   let c := (n0 - 0xC0) * 64 + c1 in
                   if 0x80 <=? c then cons c <$> Utf8.decode t1 else None
               | None => None
               end
           | _ => None
           end
         else if n0 <? 0xF0 then
           match t0 with
           | b1 :: b2 :: t2 =>
               match Utf8.continuation b1, Utf8.continuation b2 with
               | Some c1, Some c2 =>
                   let c := (n0 - 0xE0) * 4096 + c1 * 64 + c2 in
                   if (0x800 <=? c) && negb (Utf8.is_surrogate c)
                   then cons c <$> Utf8.decode t2 else None
               | _, _ => None
               end
           | _ => None
           end
         else if n0 <? 0xF8 then
           match t0 with
           | b1 :: b2 :: b3 :: t3 =>
               match Utf8.continuation b1, Utf8.continuation b2,
                     Utf8.continuation b3 with
               | Some c1, Some c2, Some c3 =>
                   let c := (n0 - 0xF0) * 262144 + c1 * 4096 + c2 * 64 + c3 in
                   if (0x10000 <=? c) && (c <? 0x110000)
                   then cons c <$> Utf8.decode t3 else None
               | _, _, _ => None
               end
           | _ => None
           end
         else None)
  end;
  cbv zeta; rewrite octet_to_N by lia; decide_comparisons.

Lemma decode_encode_point c bs rest :
  Utf8.encode_point c = Some bs →
  Utf8.decode (bs ++ rest) = cons c <$> Utf8.decode rest.
Proof.
  unfold Utf8.encode_point, Utf8.is_surrogate.
  pose proof (N.div_mod' c 64) as E1.
  pose proof (N.mod_lt c 64 ltac:(discriminate)) as B1.
  pose proof (N.div_mod' (c / 64) 64) as E2.
  pose proof (N.mod_lt (c / 64) 64 ltac:(discriminate)) as B2.
  pose proof (N.div_mod' (c / 64 / 64) 64) as E3.
  pose proof (N.mod_lt (c / 64 / 64) 64 ltac:(discriminate)) as B3.
  replace (c / 4096) with (c / 64 / 64) by (rewrite N.Div0.div_div; reflexivity).
  replace (c / 262144) with (c / 64 / 64 / 64)
    by (rewrite !N.Div0.div_div; reflexivity).
  set (q1 := c / 64) in *. set (r1 := c mod 64) in *.
  set (q2 := q1 / 64) in *. set (r2 := q1 mod 64) in *.
  set (q3 := q2 / 64) in *. set (r3 := q2 mod 64) in *.
  destruct (c <? 0x80) eqn:H1; [apply N.ltb_lt in H1|apply N.ltb_ge in H1].
  { intros [= <-]. decode_head. reflexivity. }
  destruct (c <? 0x800) eqn:H2; [apply N.ltb_lt in H2|apply N.ltb_ge in H2].
  { intros [= <-]. decode_head.
    rewrite continuation_octet by lia. decide_comparisons.
    do 2 f_equal. lia. }
  destruct (c <? 0x10000) eqn:H3; [apply N.ltb_lt in H3|apply N.ltb_ge in H3].
  { destruct ((0xD800 <=? c) && (c <=? 0xDFFF)) eqn:Hs; [discriminate|].
    intros [= <-]. decode_head.
    rewrite !continuation_octet by lia.
    replace ((0xE0 + q2 - 0xE0) * 4096 + r2 * 64 + r1) with c by lia.
    unfold Utf8.is_surrogate. rewrite Hs. decide_comparisons. reflexivity. }
  destruct (c <? 0x110000) eqn:H4; [apply N.ltb_lt in H4|discriminate].
  intros [= <-]. decode_head.
  rewrite !continuation_octet by lia.
  replace ((0xF0 + q3 - 0xF0) * 262144 + r3 * 4096 + r2 * 64 + r1) with c by lia.
  decide_comparisons. reflexivity.
Qed.

Lemma utf8_decode_encode s bs :
  Utf8.encode s = Some bs → Utf8.decode bs = Some s.
Proof.
  revert bs. induction s as [|c s IH]; intros bs.
  - intros [= <-]. reflexivity.
  - cbn [Utf8.encode]. destruct (Utf8.encode_point c) as [b|] eqn:Hc; [|discriminate].
    destruct (Utf8.encode s) as [bs'|]; [|discriminate].
    intros [= <-]. rewrite (decode_encode_point _ _ _ Hc), (IH _ eq_refl). reflexivity.
Qed.

(** ** The filesystem model *)

Section Filesystem.
Implicit Types (fs : gmap path node) (p q directory : path).

Lemma rmtree_lookup_below directory fs q :
  directory `prefix_of` q → rmtree directory fs !! q = None.
Proof.
  intros Hbelow. unfold rmtree. apply map_lookup_filter_None. right.
  intros x _ Hnot. apply Hnot. exact Hbelow.
Qed.

Lemma rmtree_lookup_outside directory fs q :
  ¬ directory `prefix_of` q → rmtree directory fs !! q = fs !! q.
Proof.
  intros Hout. unfold rmtree. destruct (fs !! q) as [x|] eqn:E.
  - apply map_lookup_filter_Some. split; [exact E | exact Hout].
  - apply map_lookup_filter_None. left. exact E.
Qed.

Lemma path_join_below directory name :
  directory `prefix_of` path_join directory name.
Proof. unfold path_join. apply prefix_app_r. reflexivity. Qed.

Lemma path_join_neq directory name : directory ≠ path_join directory name.
Proof.
  unfold path_join. intros H. apply (f_equal length) in H.
  rewrite length_app in H. simpl in H. lia.
Qed.

Lemma outside_neq directory p q :
  directory `prefix_of` q → ¬ directory `prefix_of` p → q ≠ p.
Proof. intros Hq Hp ->. exact (Hp Hq). Qed.

(** A fresh temporary directory accepts new files. *)
Lemma writable_in_tempdir tempdir name w :
  fresh_dir tempdir w →
  writable (<[tempdir := Dir]> (files w)) (path_join tempdir name) = true.
Proof.
  intros Hfresh. unfold writable.
  assert (Hfile : is_dir (<[tempdir := Dir]> (files w)) (path_join tempdir name) = false).
  { unfold is_dir. rewrite lookup_insert_ne by apply path_join_neq.
    rewrite (Hfresh _ (path_join_below tempdir name)). reflexivity. }
  rewrite Hfile. unfold path_join at 1 2. rewrite removelast_last.
  destruct tempdir as [|d ds]; [reflexivity|].
  simpl. unfold is_dir. rewrite lookup_insert_eq. reflexivity.
Qed.

Lemma staged_twice tempdir name content fs :
  <[path_join tempdir name := File content]>
    (<[path_join tempdir name := File []]> (<[tempdir := Dir]> fs))
  = staged tempdir name content fs.
Proof. unfold staged. apply insert_insert_eq. Qed.

(** The child finds the source, as the codec wrote it, in its input
    file. *)
Lemma staged_source tempdir name code source fs :
  Utf8.encode code = Some source →
  ∃ content,
    readable (staged tempdir name source fs) (path_join tempdir name) = Some content ∧
    Utf8.decode content = Some code.
Proof.
  intros Henc. exists source. split.
  - unfold readable, staged. rewrite lookup_insert_eq. reflexivity.
  - apply utf8_decode_encode, Henc.
Qed.

Lemma empty_world_fresh tempdir : fresh_dir tempdir empty_world.
Proof. intros q _. apply lookup_empty. Qed.

End Filesystem.

(** ** Running the monad *)

Ltac py_unfold :=
  unfold TemporaryDirectory, bind, try_except, call, open_wb, file_write, read_rb,
    encode_utf8, decode_utf8, ret, raise, record, set_files in *.

Ltac py_step :=
  cbn [files trace is_OSError Tikz.str_of_error fst snd];
  rewrite ?staged_twice, <- ?app_assoc; cbn [app].


Lemma TemporaryDirectory_cleans {A} tempdir (body : M A) w q :
  tempdir `prefix_of` q →
  files (TemporaryDirectory tempdir body w).2 !! q = None.
Proof.
  intros Hq. unfold TemporaryDirectory.
  destruct (body _) as [r w']. simpl. apply rmtree_lookup_below, Hq.
Qed.

(** ** The invokers, case by case *)

Section Invokers.
Variables (tempdir : path) (w : world).
Hypothesis Hfresh : fresh_dir tempdir w.

Lemma run_latex_launch_fails msg code command source :
  Utf8.encode code = Some source →
  let command' := command ++ [lit "code.tex"] in
  Tikz.run_latex tempdir (LaunchFails msg) code command w =
  (Raise (LatexError command' (-1) msg code),
   cleaned tempdir (launched_in tempdir (lit "code.tex") source command' w)).
Proof.
  intros Henc. unfold Tikz.run_latex. py_unfold. cbn [files trace].
  rewrite (writable_in_tempdir _ _ _ Hfresh), Henc. py_step. reflexivity.
Qed.

Lemma run_latex_runs exit effect code command source :
  Utf8.encode code = Some source →
  let command' := command ++ [lit "code.tex"] in
  let w' := set_files effect (launched_in tempdir (lit "code.tex") source command' w) in
  Tikz.run_latex tempdir (Runs exit effect) code command w =
  (if Tikz.truthy (returncode_of exit) then
     match readable (files w') (path_join tempdir (lit "code.log")) with
     | Some log =>
         match Utf8.decode log with
         | Some error => Raise (LatexError command' (returncode_of exit) error code)
         | None => Raise UnicodeDecodeError
         end
     | None =>
         Raise (LatexError command' (returncode_of exit) (lit "no log file created") code)
     end
   else
     match readable (files w') (path_join tempdir (lit "code.pdf")) with
     | Some output => Return output
     | None =>
         Raise (LatexError command' (returncode_of exit) (lit "no output created") code)
     end,
   cleaned tempdir w').
Proof.
  intros Henc command' w'. subst command' w'.
  unfold Tikz.run_latex. py_unfold. cbn [files trace].
  rewrite (writable_in_tempdir _ _ _ Hfresh), Henc. py_step.
  unfold cleaned, launched_in, set_files. cbn [files trace].
  destruct (Tikz.truthy (returncode_of exit)).
  - destruct (readable _ _) as [log|]; py_step; [|reflexivity].
    destruct (Utf8.decode log); reflexivity.
  - destruct (readable _ _) as [output|]; py_step; reflexivity.
Qed.

Lemma convert_pdf2svg_launch_fails msg pdf_content command :
  let command' := command ++ [lit "inpdf.pdf"; lit "outsvg.svg"] in
  Tikz.convert_pdf2svg tempdir (LaunchFails msg) pdf_content command w =
  (Raise (ConvertError command' (-1) msg),
   cleaned tempdir (launched_in tempdir (lit "inpdf.pdf") pdf_content command' w)).
Proof.
  unfold Tikz.convert_pdf2svg. py_unfold. cbn [files trace].
  rewrite (writable_in_tempdir _ _ _ Hfresh). py_step. reflexivity.
Qed.

Lemma convert_pdf2svg_runs exit effect pdf_content command :
  let command' := command ++ [lit "inpdf.pdf"; lit "outsvg.svg"] in
  let w' := set_files effect (launched_in tempdir (lit "inpdf.pdf") pdf_content command' w) in
  Tikz.convert_pdf2svg tempdir (Runs exit effect) pdf_content command w =
  (if Tikz.truthy (returncode_of exit) then Raise (ConvertError command' (-1) [])
   else
     match readable (files w') (path_join tempdir (lit "outsvg.svg")) with
     | Some svg =>
         match Utf8.decode svg with
         | Some output => Return output
         | None => Raise UnicodeDecodeError
         end
     | None =>
         Raise (ConvertError command' (returncode_of exit) (lit "no output created"))
     end,
   cleaned tempdir w').
Proof.
  intros command' w'. subst command' w'.
  unfold Tikz.convert_pdf2svg. py_unfold. cbn [files trace].
  rewrite (writable_in_tempdir _ _ _ Hfresh). py_step.
  unfold cleaned, launched_in, set_files. cbn [files trace].
  destruct (Tikz.truthy (returncode_of exit)); [reflexivity|].
  destruct (readable _ _) as [svg|]; py_step; [|reflexivity].
  destruct (Utf8.decode svg); reflexivity.
Qed.

Lemma convert_pdf2png_launch_fails msg pdf_content command :
  let command' := command ++ [lit "inpdf.pdf"; lit "outpng.png"] in
  Tikz.convert_pdf2png tempdir (LaunchFails msg) pdf_content command w =
  (Raise (ConvertError command' (-1) msg),
   cleaned tempdir (launched_in tempdir (lit "inpdf.pdf") pdf_content command' w)).
Proof.
  unfold Tikz.convert_pdf2png. py_unfold. cbn [files trace].
  rewrite (writable_in_tempdir _ _ _ Hfresh). py_step. reflexivity.
Qed.

Lemma convert_pdf2png_runs exit effect pdf_content command :
  let command' := command ++ [lit "inpdf.pdf"; lit "outpng.png"] in
  let w' := set_files effect (launched_in tempdir (lit "inpdf.pdf") pdf_content command' w) in
  Tikz.convert_pdf2png tempdir (Runs exit effect) pdf_content command w =
  (if Tikz.truthy (returncode_of exit) then Raise (ConvertError command' (-1) [])
   else
     match readable (files w') (path_join tempdir (lit "outpng.png")) with
     | Some output => Return output
     | None =>
         Raise (ConvertError command' (returncode_of exit) (lit "no output created"))
     end,
   cleaned tempdir w').
Proof.
  intros command' w'. subst command' w'.
  unfold Tikz.convert_pdf2png. py_unfold. cbn [files trace].
  rewrite (writable_in_tempdir _ _ _ Hfresh). py_step.
  unfold cleaned, launched_in, set_files. cbn [files trace].
  destruct (Tikz.truthy (returncode_of exit)); [reflexivity|].
  destruct (readable _ _) as [png|]; py_step; reflexivity.
Qed.

End Invokers.

Lemma graphviz_launch_fails msg code options fmt cmd w :
  Graphviz.graphviz (PipeLaunchFails msg) code options fmt cmd w =
  (Raise (OSError msg), record (Exec (graphviz_command cmd options fmt) None) w).
Proof. reflexivity. Qed.

Lemma graphviz_runs communicates stdout stderr exit code options fmt cmd w input :
  Utf8.encode code = Some input →
  Graphviz.graphviz (PipeRuns communicates stdout stderr exit) code options fmt cmd w =
  (if negb (returncode_of exit =? 0)%Z then
     match Utf8.decode stderr with
     | Some text =>
         Raise (GraphvizError (graphviz_command cmd options fmt)
                  (returncode_of exit) text code)
     | None => Raise UnicodeDecodeError
     end
   else
     match fmt with
     | Graphviz.SVG =>
         match Utf8.decode stdout with
         | Some text => Return (Str text)
         | None => Raise UnicodeDecodeError
         end
     | _ => Return (Bytes stdout)
     end,
   record (Exec (graphviz_command cmd options fmt) None) w).
Proof.
  intros Henc. unfold Graphviz.graphviz, Graphviz.Popen, Graphviz.communicate,
    Graphviz.drain, Graphviz.returncode, graphviz_command.
  py_unfold. rewrite Henc.
  destruct communicates; cbn [is_OSError];
    (destruct (negb (returncode_of exit =? 0)%Z);
     [destruct (Utf8.decode stderr); reflexivity
     |destruct fmt; try reflexivity; destruct (Utf8.decode stdout); reflexivity]).
Qed.

Lemma graphviz_unencodable communicates stdout stderr exit code options fmt cmd w :
  Utf8.encode code = None →
  Graphviz.graphviz (PipeRuns communicates stdout stderr exit) code options fmt cmd w =
  (Raise UnicodeEncodeError, record (Exec (graphviz_command cmd options fmt) None) w).
Proof.
  intros Henc. unfold Graphviz.graphviz, Graphviz.Popen, graphviz_command.
  py_unfold. rewrite Henc. reflexivity.
Qed.

Lemma truthy_nonzero rc : Tikz.truthy rc = true ↔ rc ≠ 0%Z.
Proof.
  unfold Tikz.truthy. rewrite negb_true_iff. apply Z.eqb_neq.
Qed.

Lemma truthy_zero rc : Tikz.truthy rc = false ↔ rc = 0%Z.
Proof.
  unfold Tikz.truthy. rewrite negb_false_iff. apply Z.eqb_eq.
Qed.

(** ** Document assembly *)

Lemma tikz_picture_shape tikz_options cell :
  Template.scan [(lit "options", tikz_options); (lit "code", cell)]
    Template.Literal Tikz.tikz_picture_template
  = Return (lit "
\begin{tikzpicture}[" ++ tikz_options ++ lit "]
" ++ cell ++ lit "
\end{tikzpicture}
").
Proof. vm_compute. reflexivity. Qed.

Lemma latex_document_shape packages libraries code :
  Template.scan [(lit "packages", packages); (lit "libraries", libraries);
                 (lit "code", code)]
    Template.Literal Tikz.latex_template
  = Return (lit "
\documentclass{article}

\usepackage[utf8]{inputenc}
\usepackage[T1]{fontenc}

\usepackage{amsmath}
\usepackage{amsfonts}
\usepackage{amssymb}

" ++ packages ++ lit "

\usepackage{tikz}

" ++ libraries ++ lit "

\usepackage[graphics,tightpage,active]{preview}

\PreviewEnvironment{tikzpicture}
\PreviewEnvironment{equation}
\PreviewEnvironment{equation*}

\newlength{\imagewidth}
\newlength{\imagescale}

\pagestyle{empty}
\thispagestyle{empty}

\begin{document}
" ++ code ++ lit "
\end{document}").
Proof. vm_compute. reflexivity. Qed.

(** The appending loops are maps. *)
Lemma append_loop_map {A B} (f : A -> B) (l : list A) (acc : list B) :
  fold_left (fun acc x => acc ++ [f x]) l acc = acc ++ map f l.
Proof.
  revert acc. induction l as [|x l IH]; intros acc; simpl.
  - symmetry. apply app_nil_r.
  - rewrite IH, <- app_assoc. reflexivity.
Qed.

(** ** What the steps of the TikZ magic leave in the trace *)

Lemma latex_command_not_conversion tempdir :
  ¬ conversion_event (Exec (Tikz.DEFAULT_PDFLATEX ++ [lit "code.tex"]) (Some tempdir)).
Proof. intros [H|H]; vm_compute in H; discriminate H. Qed.

Ltac solve_events :=
  cbn [snd fst files trace];
  first
    [ exists []; split; [symmetry; apply app_nil_r | constructor]
    | eexists [_; _]; split;
      [ rewrite <- app_assoc; reflexivity
      | repeat constructor; [intros [] | apply latex_command_not_conversion] ] ].

(** [run_latex] launches no converter. *)
Lemma run_latex_events tempdir c code w :
  ∃ events,
    trace (Tikz.run_latex tempdir c code Tikz.DEFAULT_PDFLATEX w).2 = trace w ++ events ∧
    Forall (fun e => ¬ conversion_event e) events.
Proof.
  unfold Tikz.run_latex. py_unfold. cbn [files trace].
  destruct (writable _ _); [|solve_events].
  destruct (Utf8.encode code); [|solve_events].
  destruct c as [msg|exit effect]; cbn [is_OSError]; [solve_events|].
  destruct (Tikz.truthy _).
  - cbn [files]. destruct (readable _ _) as [log|]; cbn [is_OSError]; [|solve_events].
    destruct (Utf8.decode log); solve_events.
  - cbn [files]. destruct (readable _ _); solve_events.
Qed.

(** [run_latex] raises no [ConvertError]. *)
Lemma run_latex_no_ConvertError tempdir c code command w :
  ¬ raises_ConvertError (Tikz.run_latex tempdir c code command w).1.
Proof.
  unfold Tikz.run_latex. py_unfold. cbn [files trace].
  destruct (writable _ _); [|intros []].
  destruct (Utf8.encode code); [|intros []].
  destruct c as [msg|exit effect]; cbn [is_OSError]; [intros []|].
  destruct (Tikz.truthy _).
  - cbn [files]. destruct (readable _ _) as [log|]; cbn [is_OSError]; [|intros []].
    destruct (Utf8.decode log); intros [].
  - cbn [files]. destruct (readable _ _); intros [].
Qed.

(** The two statements that save the PDF. *)
Lemma save_step p pdf_content w :
  (open_wb p ;;; file_write p pdf_content) w =
  if writable (files w) p
  then (Return tt,
        {| files := <[p := File pdf_content]> (<[p := File []]> (files w));
           trace := trace w ++ [Wrote p pdf_content] |})
  else (Raise (OSError (lit "cannot open file for writing")), w).
Proof. py_unfold. destruct (writable _ _); reflexivity. Qed.

(** A conversion only adds to the trace. *)
Lemma convert_pdf2svg_events tempdir c pdf_content command w :
  ∃ events,
    trace (Tikz.convert_pdf2svg tempdir c pdf_content command w).2 = trace w ++ events.
Proof.
  unfold Tikz.convert_pdf2svg. py_unfold. cbn [files trace].
  destruct (writable _ _); [|exists []; symmetry; apply app_nil_r].
  destruct c as [msg|exit effect]; cbn [is_OSError];
    [eexists; cbn [snd trace]; rewrite <- app_assoc; reflexivity|].
  destruct (Tikz.truthy _);
    [eexists; cbn [snd trace]; rewrite <- app_assoc; reflexivity|].
  cbn [files]. destruct (readable _ _) as [svg|]; cbn [is_OSError];
    [|eexists; cbn [snd trace]; rewrite <- app_assoc; reflexivity].
  destruct (Utf8.decode svg); eexists; cbn [snd trace]; rewrite <- app_assoc; reflexivity.
Qed.

(** A conversion leaves alone every file outside its temporary
    directory that the converter leaves alone. *)
Lemma convert_pdf2svg_frame tempdir c pdf_content command w p :
  ¬ tempdir `prefix_of` p → leaves_alone c p →
  files (Tikz.convert_pdf2svg tempdir c pdf_content command w).2 !! p = files w !! p.
Proof.
  intros Hout Halone.
  assert (Hdir : tempdir ≠ p) by (intros ->; apply Hout; reflexivity).
  assert (Hin : path_join tempdir (lit "inpdf.pdf") ≠ p)
    by (apply (outside_neq tempdir); [apply path_join_below | exact Hout]).
  unfold Tikz.convert_pdf2svg. py_unfold. cbn [files trace].
  destruct (writable _ _).
  - destruct c as [msg|exit effect]; cbn [is_OSError leaves_alone] in *.
    + cbn [snd files]. rewrite rmtree_lookup_outside by exact Hout.
      rewrite !lookup_insert_ne by assumption. reflexivity.
    + assert (Hgoal : ∀ r (w' : world),
                files w' = effect (<[path_join tempdir (lit "inpdf.pdf") := File pdf_content]>
                             (<[path_join tempdir (lit "inpdf.pdf") := File []]>
                                (<[tempdir := Dir]> (files w)))) →
                files ((r : result str), set_files (rmtree tempdir) w').2 !! p = files w !! p).
      { intros r w' Hw'. cbn [snd set_files files].
        rewrite rmtree_lookup_outside by exact Hout. rewrite Hw', Halone.
        rewrite !lookup_insert_ne by assumption. reflexivity. }
      destruct (Tikz.truthy _); [apply (Hgoal _ (World _ _)); reflexivity|].
      cbn [files]. destruct (readable _ _) as [svg|]; cbn [is_OSError];
        [|apply (Hgoal _ (World _ _)); reflexivity].
      destruct (Utf8.decode svg); apply (Hgoal _ (World _ _)); reflexivity.
  - cbn [snd files]. rewrite rmtree_lookup_outside by exact Hout.
    rewrite lookup_insert_ne by assumption. reflexivity.
Qed.

(** ** The TikZ magic as a sequence of three steps

    The two template substitutions always succeed; what is left is
    [run_latex] on the assembled document, the optional save and the
    branch on the format. *)
Lemma tikz_steps latex_dir latex convert_dir converter line cell w :
  ∃ latex_document,
    Tikz.tikz latex_dir latex convert_dir converter line cell w =
    (pdf_content <- Tikz.run_latex latex_dir latex latex_document Tikz.DEFAULT_PDFLATEX ;;
     match Tikz.save_target (Tikz.parse_argstring line) with
     | Some filename =>
         open_wb (fspath filename) ;;; file_write (fspath filename) pdf_content
     | None => ret tt
     end ;;;
     match Tikz.Format_of_choice (Tikz.format (Tikz.parse_argstring line)) with
     | Tikz.SVG =>
         svg <- Tikz.convert_pdf2svg convert_dir converter pdf_content
                  Tikz.DEFAULT_PDF2SVG ;;
         Tikz.publish_display_data [(lit "image/svg+xml", svg)]
                                   [(lit "isolated", lit "true")] ;;;
         ret None
     | Tikz.PNG => raise (NameError (lit "display"))
     | Tikz.PDF => ret None
     end) w.
Proof.
  unfold Tikz.tikz. unfold bind at 1. unfold Template.substitute at 1.
  rewrite tikz_picture_shape. unfold bind at 1. unfold Template.substitute at 1.
  rewrite latex_document_shape. eexists. reflexivity.
Qed.

(** ** Outcomes of one invocation *)




Example run_latex_no_output :
  (Tikz.run_latex tmpdir (Runs (Exited 0) idle) (lit "x")
     Tikz.DEFAULT_PDFLATEX empty_world).1
  = Raise (LatexError (Tikz.DEFAULT_PDFLATEX ++ [lit "code.tex"]) 0
             (lit "no output created") (lit "x")).
Proof. vm_compute. reflexivity. Qed.

(** ** Failed launches *)

(** C2 (as amended): when the program cannot be launched, [run_latex]
    raises [LatexError] and both converters raise [ConvertError], with
    return code -1 and the text of the operating-system error; -1 is
    the return code of no process that ran and exited, and a
    [LatexError] raised after the process exited carries that exit
    code, so the two stay apart.  [graphviz] does not wrap a failed
    launch: the [OSError] of [Popen] propagates. *)
Theorem launch_failure_report
    tempdir w code source command pdf_content msg options fmt cmd :
  fresh_dir tempdir w →
  Utf8.encode code = Some source →
  (Tikz.run_latex tempdir (LaunchFails msg) code command w).1
    = Raise (LatexError (command ++ [lit "code.tex"]) (-1) msg code) ∧
  (Tikz.convert_pdf2svg tempdir (LaunchFails msg) pdf_content command w).1
    = Raise (ConvertError (command ++ [lit "inpdf.pdf"; lit "outsvg.svg"]) (-1) msg) ∧
  (Tikz.convert_pdf2png tempdir (LaunchFails msg) pdf_content command w).1
    = Raise (ConvertError (command ++ [lit "inpdf.pdf"; lit "outpng.png"]) (-1) msg) ∧
  (∀ exit_code, returncode_of (Exited exit_code) ≠ (-1)%Z) ∧
  (∀ exit_code effect command' returncode stderr code',
     (Tikz.run_latex tempdir (Runs (Exited exit_code) effect) code command w).1
       = Raise (LatexError command' returncode stderr code') →
     returncode = Z.of_N exit_code ∧ returncode ≠ (-1)%Z) ∧
  (Graphviz.graphviz (PipeLaunchFails msg) code options fmt cmd w).1
    = Raise (OSError msg).
Proof.
  intros Hfresh Henc.
  rewrite (run_latex_launch_fails _ _ Hfresh _ _ _ _ Henc).
  rewrite (convert_pdf2svg_launch_fails _ _ Hfresh).
  rewrite (convert_pdf2png_launch_fails _ _ Hfresh).
  do 3 (split; [reflexivity|]).
  split; [intros exit_code; cbn [returncode_of]; lia|].
  split; [|reflexivity].
  intros exit_code effect command' returncode stderr code'.
  rewrite (run_latex_runs _ _ Hfresh _ _ _ _ _ Henc). cbn [fst returncode_of].
  assert (Hsentinel : Z.of_N exit_code ≠ (-1)%Z) by lia.
  destruct (Tikz.truthy _).
  - destruct (readable _ _) as [log|]; [destruct (Utf8.decode log)|];
      intros H; try discriminate H; injection H as _ <- _ _; auto.
  - destruct (readable _ _); intros H; try discriminate H.
    injection H as _ <- _ _; auto.
Qed.

Lemma launch_failure_report_witness :
  fresh_dir tmpdir empty_world ∧
  Utf8.encode (lit "x") = Some [x78] ∧
  (Tikz.run_latex tmpdir (LaunchFails (lit "[Errno 2] No such file or directory: 'pdflatex'"))
     (lit "x") Tikz.DEFAULT_PDFLATEX empty_world).1
  = Raise (LatexError (Tikz.DEFAULT_PDFLATEX ++ [lit "code.tex"]) (-1)
             (lit "[Errno 2] No such file or directory: 'pdflatex'") (lit "x")).
Proof.
  split; [apply empty_world_fresh|]. split; [reflexivity|].
  apply (launch_failure_report tmpdir empty_world (lit "x") [x78] Tikz.DEFAULT_PDFLATEX
           [] _ [] Graphviz.SVG Graphviz.DOT (empty_world_fresh tmpdir) eq_refl).
Defined.

(** C2, as stated, fails for Graphviz: when [dot] cannot be launched the
    call does not end in a [GraphvizError] at all. *)
Lemma graphviz_launch_failure_unwrapped :
  ¬ raises_GraphvizError
      (Graphviz.graphviz
         (PipeLaunchFails (lit "[Errno 2] No such file or directory: 'dot'"))
         (lit "digraph { a -> b; }") [] Graphviz.SVG Graphviz.DOT empty_world).1.
Proof. vm_compute. intros []. Qed.

(** The converters report a process that ran and failed with -1 as well. *)
Example converter_sentinel_collides :
  (Tikz.convert_pdf2svg tmpdir (LaunchFails (lit "[Errno 2]")) [] Tikz.DEFAULT_PDF2SVG
     empty_world).1
  = Raise (ConvertError (Tikz.DEFAULT_PDF2SVG ++ [lit "inpdf.pdf"; lit "outsvg.svg"])
             (-1) (lit "[Errno 2]")) ∧
  (Tikz.convert_pdf2svg tmpdir (Runs (Exited 1) idle) [] Tikz.DEFAULT_PDF2SVG
     empty_world).1
  = Raise (ConvertError (Tikz.DEFAULT_PDF2SVG ++ [lit "inpdf.pdf"; lit "outsvg.svg"])
             (-1) []).
Proof. split; vm_compute; reflexivity. Qed.

(** A process killed by signal 1 is reported with return code -1 too. *)
Example hangup_returncode : returncode_of (Signaled 1) = (-1)%Z.
Proof. reflexivity. Qed.

(** ** Non-zero exits *)




Example undecodable_log_raises :
  (Tikz.run_latex tmpdir
     (Runs (Exited 1) (writes (path_join tmpdir (lit "code.log")) [x21; xe9]))
     (lit "\foo") Tikz.DEFAULT_PDFLATEX empty_world).1
  = Raise UnicodeDecodeError.
Proof. vm_compute. reflexivity. Qed.

(** The same for [dot]: a standard error that is not valid UTF-8 ends
    the call in [UnicodeDecodeError], not in a [GraphvizError]. *)
Example undecodable_stderr_raises :
  (Graphviz.graphviz (PipeRuns true [] [x21; xe9] (Exited 1))
     (lit "digraph { a -> }") [] Graphviz.SVG Graphviz.DOT empty_world).1
  = Raise UnicodeDecodeError.
Proof. vm_compute. reflexivity. Qed.

(** ** Failed conversions *)

(** C4 at its failing input: a converter that exits with code 1 (or 2)
    makes [convert_pdf2svg] (or [convert_pdf2png]) raise a [ConvertError]
    whose return code is -1, not the exit code of the process. *)
Theorem convert_error_hides_exit_code :
  (Tikz.convert_pdf2svg tmpdir (Runs (Exited 1) idle) [x25; x50]
     Tikz.DEFAULT_PDF2SVG empty_world).1
  = Raise (ConvertError [lit "pdf2svg"; lit "inpdf.pdf"; lit "outsvg.svg"] (-1) []) ∧
  (Tikz.convert_pdf2png tmpdir (Runs (Exited 2) idle) [x25; x50]
     Tikz.DEFAULT_PDF2PNG empty_world).1
  = Raise (ConvertError [lit "convert"; lit "-density"; lit "300";
                         lit "inpdf.pdf"; lit "outpng.png"] (-1) []).
Proof. split; vm_compute; reflexivity. Qed.

(** ** The library-inclusion block *)

(** C5: the directives of the library block are one
    [\usetikzlibrary{name}] per library given on the magic line, in the
    order given, followed by one per default library, in the order of
    [DEFAULT_LIBRARIES].  When [--library] is not given, the defaults
    stand in for it and every default library is included exactly
    twice.  The directive is written out in the statement: the text
    [\usetikzlibrary{], the name, and [}]. *)
Theorem library_inclusion_block line :
  let args := Tikz.parse_argstring line in
  let directive := fun name : str => lit "\usetikzlibrary{" ++ name ++ lit "}" in
  (∀ L, Tikz.given_library line = Some L →
        Tikz.tikz_libraries args
        = map directive L ++ map directive Tikz.DEFAULT_LIBRARIES) ∧
  (Tikz.given_library line = None →
        Tikz.tikz_libraries args
        = map directive Tikz.DEFAULT_LIBRARIES ++ map directive Tikz.DEFAULT_LIBRARIES ∧
        ∀ name, In name Tikz.DEFAULT_LIBRARIES →
          count_occ str_eq_dec (Tikz.tikz_libraries args) (directive name) = 2%nat).
Proof.
  intros args directive. subst args directive.
  unfold Tikz.tikz_libraries, Tikz.parse_argstring.
  cbn [Tikz.library]. split.
  - intros L ->. cbn [default]. rewrite append_loop_map, map_app. reflexivity.
  - intros ->. cbn [default]. rewrite append_loop_map, map_app. split; [reflexivity|].
    intros name Hin. cbn [app].
    repeat (destruct Hin as [<-|Hin]; [vm_compute; reflexivity|]).
    destruct Hin.
Qed.

Lemma library_inclusion_block_witness :
  (Tikz.given_library
     {| Tikz.given_format := None; Tikz.given_library := Some [lit "automata"; lit "arrows"];
        Tikz.given_package := None; Tikz.given_options := None;
        Tikz.given_save := None |} = Some [lit "automata"; lit "arrows"] ∧
   Tikz.tikz_libraries
     (Tikz.parse_argstring
        {| Tikz.given_format := None; Tikz.given_library := Some [lit "automata"; lit "arrows"];
           Tikz.given_package := None; Tikz.given_options := None;
           Tikz.given_save := None |})
   = [lit "\usetikzlibrary{automata}"; lit "\usetikzlibrary{arrows}";
      lit "\usetikzlibrary{arrows}"; lit "\usetikzlibrary{snakes}";
      lit "\usetikzlibrary{backgrounds}"; lit "\usetikzlibrary{patterns}";
      lit "\usetikzlibrary{matrix}"; lit "\usetikzlibrary{shapes}";
      lit "\usetikzlibrary{fit}"; lit "\usetikzlibrary{calc}";
      lit "\usetikzlibrary{shadows}"; lit "\usetikzlibrary{plotmarks}"]) ∧
  (Tikz.given_library
     {| Tikz.given_format := None; Tikz.given_library := None;
        Tikz.given_package := None; Tikz.given_options := None;
        Tikz.given_save := None |} = None ∧
   In (lit "calc") Tikz.DEFAULT_LIBRARIES ∧
   count_occ str_eq_dec
     (Tikz.tikz_libraries
        (Tikz.parse_argstring
           {| Tikz.given_format := None; Tikz.given_library := None;
              Tikz.given_package := None; Tikz.given_options := None;
              Tikz.given_save := None |}))
     (lit "\usetikzlibrary{calc}") = 2%nat).
Proof.
  split.
  - split; [reflexivity|].
    destruct (library_inclusion_block
                {| Tikz.given_format := None;
                   Tikz.given_library := Some [lit "automata"; lit "arrows"];
                   Tikz.given_package := None; Tikz.given_options := None;
                   Tikz.given_save := None |}) as [Hgiven _].
    rewrite (Hgiven [lit "automata"; lit "arrows"] eq_refl). vm_compute. reflexivity.
  - split; [reflexivity|]. split; [vm_compute; tauto|].
    destruct (library_inclusion_block
                {| Tikz.given_format := None; Tikz.given_library := None;
                   Tikz.given_package := None; Tikz.given_options := None;
                   Tikz.given_save := None |}) as [_ Hdefault].
    destruct (Hdefault eq_refl) as [_ Hcount].
    change (lit "\usetikzlibrary{calc}")
      with (lit "\usetikzlibrary{" ++ lit "calc" ++ lit "}").
    apply Hcount. vm_compute. tauto.
Defined.

(** The block as it stands in the document when [--library] is not
    given: the ten defaults, twice. *)
Example default_library_block :
  join [10]
    (Tikz.tikz_libraries
       (Tikz.parse_argstring
          {| Tikz.given_format := None; Tikz.given_library := None;
             Tikz.given_package := None; Tikz.given_options := None;
             Tikz.given_save := None |}))
  = lit "\usetikzlibrary{arrows}
\usetikzlibrary{snakes}
\usetikzlibrary{backgrounds}
\usetikzlibrary{patterns}
\usetikzlibrary{matrix}
\usetikzlibrary{shapes}
\usetikzlibrary{fit}
\usetikzlibrary{calc}
\usetikzlibrary{shadows}
\usetikzlibrary{plotmarks}
\usetikzlibrary{arrows}
\usetikzlibrary{snakes}
\usetikzlibrary{backgrounds}
\usetikzlibrary{patterns}
\usetikzlibrary{matrix}
\usetikzlibrary{shapes}
\usetikzlibrary{fit}
\usetikzlibrary{calc}
\usetikzlibrary{shadows}
\usetikzlibrary{plotmarks}".
Proof. vm_compute. reflexivity. Qed.

(** ** Handing the result to the host *)

(** C6 (as amended).  The Graphviz magic hands back what [graphviz]
    returned, wrapped unchanged in [display.Image] for a PNG request and
    in [display.SVG] for an SVG request; in particular, when the process
    ends with return code zero, the bytes of its standard output for PNG
    and the decoded text for SVG.  The TikZ magic, on an SVG request,
    hands back no object: whenever it returns, it returns [None], and
    what its converter returned has been published to the host under
    [image/svg+xml] with the metadata [isolated] set. *)
Theorem display_dispatch
    p args cell w input communicates stdout stderr exit
    latex_dir latex convert_dir converter line tikz_cell v (w' : world) :
  let wrap :=
    match Graphviz.format args with
    | Graphviz.choice_png => display_Image
    | Graphviz.choice_svg => display_SVG
    end in
  Graphviz.GraphvizMagics_graphviz p args cell w =
    (match (Graphviz.graphviz p cell (Graphviz.options args)
              (Graphviz.Format_of_choice (Graphviz.format args))
              (Graphviz.command args) w).1 with
     | Return output => Return (wrap output)
     | Raise e => Raise e
     end,
     (Graphviz.graphviz p cell (Graphviz.options args)
        (Graphviz.Format_of_choice (Graphviz.format args))
        (Graphviz.command args) w).2) ∧
  (Utf8.encode cell = Some input → returncode_of exit = 0%Z →
   (Graphviz.format args = Graphviz.choice_png →
    (Graphviz.GraphvizMagics_graphviz (PipeRuns communicates stdout stderr exit)
       args cell w).1 = Return (display_Image (Bytes stdout))) ∧
   (Graphviz.format args = Graphviz.choice_svg →
    ∀ text, Utf8.decode stdout = Some text →
    (Graphviz.GraphvizMagics_graphviz (PipeRuns communicates stdout stderr exit)
       args cell w).1 = Return (display_SVG (Str text)))) ∧
  (Tikz.format (Tikz.parse_argstring line) = Tikz.choice_svg →
   Tikz.tikz latex_dir latex convert_dir converter line tikz_cell w = (Return v, w') →
   v = None ∧
   ∃ pdf_content svg w2 w3,
     Tikz.convert_pdf2svg convert_dir converter pdf_content Tikz.DEFAULT_PDF2SVG w2
       = (Return svg, w3) ∧
     w' = record (Publish [(lit "image/svg+xml", svg)] [(lit "isolated", lit "true")]) w3).
Proof.
  intros wrap. split; [|split].
  - unfold Graphviz.GraphvizMagics_graphviz, bind.
    destruct (Graphviz.graphviz _ _ _ _ _ _) as [[output|e] w1]; cbn [fst snd];
      [|reflexivity].
    subst wrap. destruct (Graphviz.format args); reflexivity.
  - intros Henc Hrc. apply Z.eqb_eq in Hrc.
    unfold Graphviz.GraphvizMagics_graphviz, bind.
    rewrite (graphviz_runs _ _ _ _ _ _ _ _ _ _ Henc), Hrc. cbn [negb].
    split.
    + intros ->. reflexivity.
    + intros -> text ->. reflexivity.
  - intros Hsvg Hrun.
    destruct (tikz_steps latex_dir latex convert_dir converter line tikz_cell w)
      as [latex_document Hsteps].
    rewrite Hsteps in Hrun. clear Hsteps. rewrite Hsvg in Hrun.
    cbn [Tikz.Format_of_choice] in Hrun. unfold bind at 1 in Hrun.
    destruct (Tikz.run_latex _ _ _ _ _) as [[pdf_content|e] w1]; [|discriminate Hrun].
    unfold bind at 1 in Hrun.
    match type of Hrun with
    | match ?saving with _ => _ end = _ => destruct saving as [[[]|e] w2]
    end; [|discriminate Hrun].
    unfold bind at 1 in Hrun.
    destruct (Tikz.convert_pdf2svg convert_dir converter pdf_content
                Tikz.DEFAULT_PDF2SVG w2) as [[svg|e] w3] eqn:Hconvert;
      [|discriminate Hrun].
    injection Hrun as <- <-. split; [reflexivity|].
    exists pdf_content, svg, w2, w3. split; [exact Hconvert|reflexivity].
Qed.

Lemma display_dispatch_witness :
  let args := {| Graphviz.format := Graphviz.choice_svg;
                 Graphviz.command := Graphviz.DOT;
                 Graphviz.options := [] |} in
  let run := Tikz.tikz tmpdir produces_all tmpdir' converts_ok
               (short_line (Some Tikz.choice_svg) None)
               (lit "\draw (0,0) -- (1,1);") empty_world in
  Utf8.encode (lit "digraph { a -> b; }") = Some (blit "digraph { a -> b; }") ∧
  returncode_of (Exited 0) = 0%Z ∧
  Graphviz.format args = Graphviz.choice_svg ∧
  Utf8.decode (blit "<svg>ok</svg>") = Some (lit "<svg>ok</svg>") ∧
  Tikz.format (Tikz.parse_argstring (short_line (Some Tikz.choice_svg) None))
    = Tikz.choice_svg ∧
  run = (Return None, run.2) ∧
  (Graphviz.GraphvizMagics_graphviz dot_ok args (lit "digraph { a -> b; }")
     empty_world).1 = Return (display_SVG (Str (lit "<svg>ok</svg>"))) ∧
  ∃ pdf_content svg w2 w3,
    Tikz.convert_pdf2svg tmpdir' converts_ok pdf_content Tikz.DEFAULT_PDF2SVG w2
      = (Return svg, w3) ∧
    run.2 = record (Publish [(lit "image/svg+xml", svg)] [(lit "isolated", lit "true")]) w3.
Proof.
  intros args run.
  assert (Hrun : run = (Return None, run.2)) by (vm_compute; reflexivity).
  do 6 (split; [first [exact Hrun | reflexivity]|]).
  destruct (display_dispatch dot_ok args (lit "digraph { a -> b; }") empty_world
              (blit "digraph { a -> b; }") true (blit "<svg>ok</svg>") [] (Exited 0)
              tmpdir produces_all tmpdir' converts_ok
              (short_line (Some Tikz.choice_svg) None) (lit "\draw (0,0) -- (1,1);")
              None run.2)
    as (_ & Hdot & Htikz).
  split.
  - destruct (Hdot eq_refl eq_refl) as [_ Hsvg].
    apply (Hsvg eq_refl (lit "<svg>ok</svg>")). reflexivity.
  - destruct (Htikz eq_refl Hrun) as [_ Hpublished]. exact Hpublished.
Defined.

(** C6, as stated, fails for the TikZ pipeline: an SVG request that goes
    through returns no display object. *)
Lemma tikz_svg_returns_no_object :
  ¬ ∃ object,
      (Tikz.tikz tmpdir produces_all tmpdir' converts_ok
         (short_line (Some Tikz.choice_svg) None)
         (lit "\draw (0,0) -- (1,1);") empty_world).1 = Return (Some object).
Proof. vm_compute. intros [object H]. discriminate H. Qed.

Example tikz_svg_is_published :
  let run := Tikz.tikz tmpdir produces_all tmpdir' converts_ok
               (short_line (Some Tikz.choice_svg) None)
               (lit "\draw (0,0) -- (1,1);") empty_world in
  run.1 = Return None ∧
  last (trace run.2)
  = Some (Publish [(lit "image/svg+xml", lit "<svg/>")] [(lit "isolated", lit "true")]) ∧
  files run.2 = ∅.
Proof. vm_compute. auto. Qed.

(** In the PNG branch of the TikZ magic the name [display] is looked up
    first and is not bound: no converter is launched. *)
Example tikz_png_name_error :
  let run := Tikz.tikz tmpdir produces_all tmpdir' converts_ok
               (short_line (Some Tikz.choice_png) None)
               (lit "\draw (0,0) -- (1,1);") empty_world in
  run.1 = Raise (NameError (lit "display")) ∧
  length (trace run.2) = 2%nat.
Proof. vm_compute. auto. Qed.

(** The end-to-end scenario of the Graphviz magic. *)
Example graphviz_magic_svg :
  (Graphviz.GraphvizMagics_graphviz dot_ok
     {| Graphviz.format := Graphviz.choice_svg;
        Graphviz.command := Graphviz.DOT;
        Graphviz.options := [] |}
     (lit "digraph { a -> b; }") empty_world).1
  = Return (display_SVG (Str (lit "<svg>ok</svg>"))).
Proof. vm_compute. reflexivity. Qed.

Example graphviz_magic_png :
  (Graphviz.GraphvizMagics_graphviz (PipeRuns true [x89; x50; x4e; x47] [] (Exited 0))
     {| Graphviz.format := Graphviz.choice_png;
        Graphviz.command := Graphviz.DOT;
        Graphviz.options := [] |}
     (lit "digraph { a -> b; }") empty_world).1
  = Return (display_Image (Bytes [x89; x50; x4e; x47])).
Proof. vm_compute. reflexivity. Qed.

(** ** The argument vector of Graphviz *)

(** C7 (as amended): for every Graphviz invocation with command [cmd],
    extra options [options] and format [fmt], the one process that is
    launched gets the argument vector [cmd], then the options, then the
    two tokens [-T] and the format name; whatever happens afterwards,
    nothing else is launched. *)
Theorem graphviz_argument_vector p code options fmt cmd w :
  trace (Graphviz.graphviz p code options fmt cmd w).2
  = trace w ++ [Exec ([Graphviz.Command_value cmd] ++ options ++
                      [lit "-T"; Graphviz.Format_value fmt]) None].
Proof.
  destruct p as [msg|communicates stdout stderr exit]; [reflexivity|].
  unfold Graphviz.graphviz, Graphviz.Popen, Graphviz.communicate,
    Graphviz.drain, Graphviz.returncode.
  py_unfold. cbn [files trace].
  destruct (Utf8.encode code); [|reflexivity].
  destruct communicates; cbn [is_OSError];
    (destruct (negb (returncode_of exit =? 0)%Z);
     [destruct (Utf8.decode stderr); reflexivity
     |destruct fmt; try reflexivity; destruct (Utf8.decode stdout); reflexivity]).
Qed.

(** C7, as stated, fails: for [dot] without options and format [svg] the
    process is not launched with the single token [-Tsvg]. *)
Lemma graphviz_single_token_refuted :
  trace (Graphviz.graphviz (PipeRuns true [] [] (Exited 0))
           (lit "digraph { a -> b; }") [] Graphviz.SVG Graphviz.DOT empty_world).2
  ≠ trace empty_world ++
    [Exec ([Graphviz.Command_value Graphviz.DOT] ++ [] ++
           [lit "-T" ++ Graphviz.Format_value Graphviz.SVG]) None].
Proof. vm_compute. discriminate. Qed.

(** ** What a successful call hands back *)

(** C8: every successful invocation hands back the output of the child:
    for [graphviz] with format SVG the standard output decoded as UTF-8,
    with any other format the standard output as bytes; for
    [convert_pdf2svg] the content of [outsvg.svg] decoded as UTF-8; for
    [convert_pdf2png] the content of [outpng.png] as bytes.  Conversely
    each of these results is produced whenever the child ends with
    return code zero and the output is there (and, where text is
    involved, the codec accepts it). *)
Theorem successful_results_decoding
    tempdir w p code options fmt cmd c pdf_content command
    (v : payload) (svg : str) (png : bytes) :
  fresh_dir tempdir w →
  ((Graphviz.graphviz p code options fmt cmd w).1 = Return v ↔
   ∃ input communicates stdout stderr exit,
     Utf8.encode code = Some input ∧
     p = PipeRuns communicates stdout stderr exit ∧ returncode_of exit = 0%Z ∧
     match fmt with
     | Graphviz.SVG => ∃ text, Utf8.decode stdout = Some text ∧ v = Str text
     | _ => v = Bytes stdout
     end) ∧
  ((Tikz.convert_pdf2svg tempdir c pdf_content command w).1 = Return svg ↔
   ∃ exit effect content,
     c = Runs exit effect ∧ returncode_of exit = 0%Z ∧
     readable (effect (staged tempdir (lit "inpdf.pdf") pdf_content (files w)))
       (path_join tempdir (lit "outsvg.svg")) = Some content ∧
     Utf8.decode content = Some svg) ∧
  ((Tikz.convert_pdf2png tempdir c pdf_content command w).1 = Return png ↔
   ∃ exit effect,
     c = Runs exit effect ∧ returncode_of exit = 0%Z ∧
     readable (effect (staged tempdir (lit "inpdf.pdf") pdf_content (files w)))
       (path_join tempdir (lit "outpng.png")) = Some png).
Proof.
  intros Hfresh. split; [|split].
  - destruct p as [msg|communicates stdout stderr exit].
    { rewrite graphviz_launch_fails. cbn [fst]. split; [discriminate|].
      intros (? & ? & ? & ? & ? & _ & H & _). discriminate H. }
    destruct (Utf8.encode code) as [input|] eqn:Henc.
    2:{ rewrite (graphviz_unencodable _ _ _ _ _ _ _ _ _ Henc). cbn [fst].
        split; [discriminate|]. intros (? & ? & ? & ? & ? & H & _). discriminate H. }
    rewrite (graphviz_runs _ _ _ _ _ _ _ _ _ _ Henc). cbn [fst].
    destruct (returncode_of exit =? 0)%Z eqn:Hrc; cbn [negb].
    + apply Z.eqb_eq in Hrc. split.
      * intros H. exists input, communicates, stdout, stderr, exit.
        split; [reflexivity|]. split; [reflexivity|]. split; [exact Hrc|].
        destruct fmt; try (injection H as <-; reflexivity).
        destruct (Utf8.decode stdout) as [text|]; [|discriminate H].
        injection H as <-. exists text. split; reflexivity.
      * intros (? & ? & stdout' & ? & ? & _ & Hp & _ & Hv). injection Hp as _ <- _ _.
        destruct fmt; try (rewrite Hv; reflexivity).
        destruct Hv as (text & -> & ->). reflexivity.
    + apply Z.eqb_neq in Hrc. split.
      * destruct (Utf8.decode stderr); discriminate.
      * intros (? & ? & ? & ? & exit' & _ & Hp & Hzero & _). injection Hp as _ _ _ <-.
        contradiction.
  - destruct c as [msg|exit effect].
    + rewrite (convert_pdf2svg_launch_fails _ _ Hfresh). cbn [fst].
      split; [discriminate|]. intros (? & ? & ? & H & _). discriminate H.
    + rewrite (convert_pdf2svg_runs _ _ Hfresh). cbn [fst files launched_in set_files].
      destruct (Tikz.truthy (returncode_of exit)) eqn:Hrc.
      * apply truthy_nonzero in Hrc. split; [discriminate|].
        intros (exit' & ? & ? & Hc & Hzero & _). injection Hc as <- _. contradiction.
      * apply truthy_zero in Hrc. split.
        -- intros H. destruct (readable _ _) as [content|] eqn:Hread; [|discriminate H].
           destruct (Utf8.decode content) as [text|] eqn:Hdec; [|discriminate H].
           injection H as <-. exists exit, effect, content. auto.
        -- intros (? & effect' & content & Hc & _ & Hread & Hdec).
           injection Hc as _ <-. rewrite Hread, Hdec. reflexivity.
  - destruct c as [msg|exit effect].
    + rewrite (convert_pdf2png_launch_fails _ _ Hfresh). cbn [fst].
      split; [discriminate|]. intros (? & ? & H & _). discriminate H.
    + rewrite (convert_pdf2png_runs _ _ Hfresh). cbn [fst files launched_in set_files].
      destruct (Tikz.truthy (returncode_of exit)) eqn:Hrc.
      * apply truthy_nonzero in Hrc. split; [discriminate|].
        intros (exit' & ? & Hc & Hzero & _). injection Hc as <- _. contradiction.
      * apply truthy_zero in Hrc. split.
        -- intros H. destruct (readable _ _) as [content|] eqn:Hread; [|discriminate H].
           injection H as <-. exists exit, effect. auto.
        -- intros (? & effect' & Hc & _ & Hread).
           injection Hc as _ <-. rewrite Hread. reflexivity.
Qed.

Lemma successful_results_decoding_witness :
  fresh_dir tmpdir empty_world ∧
  (Graphviz.graphviz dot_ok (lit "digraph { a -> b; }") [] Graphviz.SVG
     Graphviz.DOT empty_world).1 = Return (Str (lit "<svg>ok</svg>")) ∧
  (Tikz.convert_pdf2svg tmpdir produces_all (blit "%PDF-1.5")
     Tikz.DEFAULT_PDF2SVG empty_world).1 = Return (lit "<svg/>") ∧
  (Tikz.convert_pdf2png tmpdir produces_all (blit "%PDF-1.5")
     Tikz.DEFAULT_PDF2PNG empty_world).1 = Return [x89; x50; x4e; x47].
Proof.
  split; [apply empty_world_fresh|].
  destruct (successful_results_decoding tmpdir empty_world dot_ok
              (lit "digraph { a -> b; }") [] Graphviz.SVG Graphviz.DOT produces_all
              (blit "%PDF-1.5") Tikz.DEFAULT_PDF2SVG
              (Str (lit "<svg>ok</svg>")) (lit "<svg/>") [x89; x50; x4e; x47]
              (empty_world_fresh tmpdir))
    as (Hdot & Hsvg & _).
  destruct (successful_results_decoding tmpdir empty_world dot_ok
              (lit "digraph { a -> b; }") [] Graphviz.SVG Graphviz.DOT produces_all
              (blit "%PDF-1.5") Tikz.DEFAULT_PDF2PNG
              (Str (lit "<svg>ok</svg>")) (lit "<svg/>") [x89; x50; x4e; x47]
              (empty_world_fresh tmpdir))
    as (_ & _ & Hpng).
  split; [|split].
  - apply Hdot. eexists _, _, _, _, _. split; [reflexivity|].
    split; [reflexivity|]. split; [reflexivity|]. eexists. split; reflexivity.
  - apply Hsvg. eexists _, _, _. split; [reflexivity|]. split; [reflexivity|].
    split; reflexivity.
  - apply Hpng. eexists _, _. split; [reflexivity|]. split; reflexivity.
Defined.

(** ** Temporary directories *)

(** C9: once [run_latex], [convert_pdf2svg] or [convert_pdf2png] has
    returned or raised, neither its temporary directory nor anything
    below it exists, whatever the child did: failed to launch, exited
    with any code, produced its output or not. *)
Theorem temporary_directory_removed tempdir c code pdf_content command w q :
  tempdir `prefix_of` q →
  files (Tikz.run_latex tempdir c code command w).2 !! q = None ∧
  files (Tikz.convert_pdf2svg tempdir c pdf_content command w).2 !! q = None ∧
  files (Tikz.convert_pdf2png tempdir c pdf_content command w).2 !! q = None.
Proof.
  intros Hq. repeat split; apply TemporaryDirectory_cleans; exact Hq.
Qed.

Lemma temporary_directory_removed_witness :
  tmpdir `prefix_of` path_join tmpdir (lit "code.pdf") ∧
  files (Tikz.run_latex tmpdir produces_all (lit "\draw (0,0) -- (1,1);")
           Tikz.DEFAULT_PDFLATEX empty_world).2
    !! path_join tmpdir (lit "code.pdf") = None.
Proof.
  split; [apply path_join_below|].
  destruct (temporary_directory_removed tmpdir produces_all
              (lit "\draw (0,0) -- (1,1);") [] Tikz.DEFAULT_PDFLATEX empty_world
              (path_join tmpdir (lit "code.pdf")) (path_join_below _ _))
    as [Hlatex _].
  exact Hlatex.
Defined.

(** The directory was really there: a child that writes [code.pdf] into
    its working directory gets its output read back, and nothing is
    left afterwards. *)
Example run_latex_reads_output :
  Tikz.run_latex tmpdir
    (Runs (Exited 0) (writes (path_join tmpdir (lit "code.pdf")) [x25; x50]))
    (lit "x") Tikz.DEFAULT_PDFLATEX empty_world
  = (Return [x25; x50],
     {| files := ∅;
        trace := [Wrote (path_join tmpdir (lit "code.tex")) [x78];
                  Exec (Tikz.DEFAULT_PDFLATEX ++ [lit "code.tex"]) (Some tmpdir)] |}).
Proof. vm_compute. reflexivity. Qed.

(** ** Saving the PDF *)

(** C10: when the magic line names a file to save to, every launch of a
    PDF converter comes after the PDF that [run_latex] returned has been
    written to that file.  If the magic then ends in a [ConvertError],
    the file still holds that PDF, given that the converter itself does
    not touch it (the file cannot lie in the converter's temporary
    directory, which did not exist when the file was written). *)
Theorem pdf_saved_before_conversion
    latex_dir latex convert_dir converter line cell w filename r w' :
  Tikz.given_save line = Some filename →
  filename ≠ [] →
  Tikz.tikz latex_dir latex convert_dir converter line cell w = (r, w') →
  ∃ events,
    trace w' = trace w ++ events ∧
    (∀ i argv cwd,
       events !! i = Some (Exec argv cwd) → conversion_command argv →
       ∃ j latex_document pdf_content w1,
         (j < i)%nat ∧
         Tikz.run_latex latex_dir latex latex_document Tikz.DEFAULT_PDFLATEX w
           = (Return pdf_content, w1) ∧
         events !! j = Some (Wrote (fspath filename) pdf_content)) ∧
    (raises_ConvertError r →
     ¬ convert_dir `prefix_of` fspath filename →
     leaves_alone converter (fspath filename) →
     ∃ latex_document pdf_content w1,
       Tikz.run_latex latex_dir latex latex_document Tikz.DEFAULT_PDFLATEX w
         = (Return pdf_content, w1) ∧
       In (Wrote (fspath filename) pdf_content) events ∧
       readable (files w') (fspath filename) = Some pdf_content).
Proof.
  intros Hsave Hnonempty Hrun.
  destruct (tikz_steps latex_dir latex convert_dir converter line cell w)
    as [latex_document Hsteps].
  rewrite Hsteps in Hrun. clear Hsteps.
  assert (Htarget : Tikz.save_target (Tikz.parse_argstring line) = Some filename).
  { unfold Tikz.save_target, Tikz.parse_argstring. cbn [Tikz.save]. rewrite Hsave.
    destruct filename; [contradiction|reflexivity]. }
  rewrite Htarget in Hrun. unfold bind at 1 in Hrun.
  destruct (run_latex_events latex_dir latex latex_document w) as (events1 & Htrace1 & Hnone).
  pose proof (run_latex_no_ConvertError latex_dir latex latex_document
                Tikz.DEFAULT_PDFLATEX w) as Hlatex.
  destruct (Tikz.run_latex latex_dir latex latex_document Tikz.DEFAULT_PDFLATEX w)
    as [[pdf_content|e] w1] eqn:Hpdf; cbn [fst snd] in *.
  2:{ injection Hrun as <- <-. exists events1. split; [exact Htrace1|]. split.
      - intros i argv cwd Hi Hconv. exfalso.
        rewrite Forall_lookup in Hnone. exact (Hnone i _ Hi Hconv).
      - intros Hraised. contradiction. }
  unfold bind at 1 in Hrun. rewrite save_step in Hrun.
  destruct (writable (files w1) (fspath filename)).
  2:{ injection Hrun as <- <-. exists events1. split; [exact Htrace1|]. split.
      - intros i argv cwd Hi Hconv. exfalso.
        rewrite Forall_lookup in Hnone. exact (Hnone i _ Hi Hconv).
      - intros []. }
  set (w2 := {| files := <[fspath filename := File pdf_content]>
                           (<[fspath filename := File []]> (files w1));
                trace := trace w1 ++ [Wrote (fspath filename) pdf_content] |}) in Hrun.
  assert (Hsaved : files w2 !! fspath filename = Some (File pdf_content))
    by (apply lookup_insert_eq).
  assert (Horder : ∀ rest i argv cwd,
            (events1 ++ Wrote (fspath filename) pdf_content :: rest) !! i
              = Some (Exec argv cwd) →
            conversion_command argv →
            ∃ j latex_document' pdf_content' w1',
              (j < i)%nat ∧
              Tikz.run_latex latex_dir latex latex_document' Tikz.DEFAULT_PDFLATEX w
                = (Return pdf_content', w1') ∧
              (events1 ++ Wrote (fspath filename) pdf_content :: rest) !! j
                = Some (Wrote (fspath filename) pdf_content')).
  { intros rest i argv cwd Hi Hconv.
    destruct (decide (i < length events1)%nat) as [Hlt|Hge].
    - exfalso. rewrite lookup_app_l in Hi by exact Hlt.
      rewrite Forall_lookup in Hnone. exact (Hnone i _ Hi Hconv).
    - exists (length events1), latex_document, pdf_content, w1.
      assert (Hhere : (events1 ++ Wrote (fspath filename) pdf_content :: rest)
                        !! length events1
                      = Some (Wrote (fspath filename) pdf_content)).
      { rewrite lookup_app_r by lia. rewrite Nat.sub_diag. reflexivity. }
      split; [|split; [exact Hpdf|exact Hhere]].
      destruct (decide (i = length events1)) as [->|Hne]; [|lia].
      rewrite Hhere in Hi. discriminate Hi. }
  destruct (Tikz.Format_of_choice _).
  - unfold bind at 1 in Hrun.
    destruct (convert_pdf2svg_events convert_dir converter pdf_content
                Tikz.DEFAULT_PDF2SVG w2) as (events3 & Htrace3).
    pose proof (convert_pdf2svg_frame convert_dir converter pdf_content
                  Tikz.DEFAULT_PDF2SVG w2 (fspath filename)) as Hframe.
    destruct (Tikz.convert_pdf2svg convert_dir converter pdf_content
                Tikz.DEFAULT_PDF2SVG w2) as [[svg|e] w3]; cbn [fst snd] in *.
    + injection Hrun as <- <-.
      exists (events1 ++ Wrote (fspath filename) pdf_content :: events3 ++
              [Publish [(lit "image/svg+xml", svg)] [(lit "isolated", lit "true")]]).
      split; [|split].
      * cbn [trace record]. rewrite Htrace3. subst w2. cbn [trace]. rewrite Htrace1.
        rewrite <- !app_assoc. reflexivity.
      * apply Horder.
      * intros [].
    + injection Hrun as <- <-.
      exists (events1 ++ Wrote (fspath filename) pdf_content :: events3).
      split; [|split].
      * rewrite Htrace3. subst w2. cbn [trace]. rewrite Htrace1.
        rewrite <- !app_assoc. reflexivity.
      * apply Horder.
      * intros _ Hout Halone. exists latex_document, pdf_content, w1.
        split; [exact Hpdf|]. split.
        -- apply in_or_app. right. left. reflexivity.
        -- unfold readable. rewrite (Hframe Hout Halone), Hsaved. reflexivity.
  - injection Hrun as <- <-.
    exists (events1 ++ Wrote (fspath filename) pdf_content :: []).
    split; [|split].
    + subst w2. cbn [trace]. rewrite Htrace1. rewrite <- !app_assoc. reflexivity.
    + apply Horder.
    + intros [].
  - injection Hrun as <- <-.
    exists (events1 ++ Wrote (fspath filename) pdf_content :: []).
    split; [|split].
    + subst w2. cbn [trace]. rewrite Htrace1. rewrite <- !app_assoc. reflexivity.
    + apply Horder.
    + intros [].
Qed.

Lemma pdf_saved_before_conversion_witness :
  let run := Tikz.tikz tmpdir produces_all tmpdir' (Runs (Exited 1) idle)
               (short_line None (Some (lit "fig.pdf")))
               (lit "\draw (0,0) -- (1,1);") empty_world in
  Tikz.given_save (short_line None (Some (lit "fig.pdf"))) = Some (lit "fig.pdf") ∧
  lit "fig.pdf" ≠ [] ∧
  raises_ConvertError run.1 ∧
  ¬ tmpdir' `prefix_of` fspath (lit "fig.pdf") ∧
  leaves_alone (Runs (Exited 1) idle) (fspath (lit "fig.pdf")) ∧
  ∃ pdf_content, readable (files run.2) (fspath (lit "fig.pdf")) = Some pdf_content.
Proof.
  intros run.
  assert (Hsave : Tikz.given_save (short_line None (Some (lit "fig.pdf")))
                  = Some (lit "fig.pdf")) by reflexivity.
  assert (Hne : lit "fig.pdf" ≠ []) by discriminate.
  assert (Hraised : raises_ConvertError run.1) by (vm_compute; exact I).
  assert (Hout : ¬ tmpdir' `prefix_of` fspath (lit "fig.pdf")).
  { intros [k Hk]. vm_compute in Hk. discriminate Hk. }
  assert (Halone : leaves_alone (Runs (Exited 1) idle) (fspath (lit "fig.pdf")))
    by (intros fs; reflexivity).
  repeat (split; [assumption|]).
  destruct (pdf_saved_before_conversion tmpdir produces_all tmpdir' (Runs (Exited 1) idle)
              (short_line None (Some (lit "fig.pdf"))) (lit "\draw (0,0) -- (1,1);")
              empty_world (lit "fig.pdf") run.1 run.2 Hsave Hne
              (surjective_pairing run))
    as (events & _ & _ & Hpersists).
  destruct (Hpersists Hraised Hout Halone) as (_ & pdf_content & _ & _ & _ & Hread).
  exists pdf_content. exact Hread.
Defined.

Example saved_pdf_persists :
  let run := Tikz.tikz tmpdir produces_all tmpdir' (Runs (Exited 1) idle)
               (short_line None (Some (lit "fig.pdf")))
               (lit "\draw (0,0) -- (1,1);") empty_world in
  run.1 = Raise (ConvertError (Tikz.DEFAULT_PDF2SVG ++ [lit "inpdf.pdf"; lit "outsvg.svg"])
                   (-1) []) ∧
  files run.2 !! [lit "fig.pdf"] = Some (File (blit "%PDF-1.5")) ∧
  files run.2 !! tmpdir = None ∧
  files run.2 !! tmpdir' = None.
Proof. vm_compute. auto. Qed.

(** * Further properties of the two modules *)

(** ** The file-based invokers: results, traces, and what they leave *)

Lemma truthy_returncode_zero exit :
  returncode_of exit = 0%Z → Tikz.truthy (returncode_of exit) = false.
Proof. intros ->. reflexivity. Qed.

Lemma copies_readable source target content fs :
  fs !! source = Some (File content) →
  readable (copies source target fs) target = Some content.
Proof.
  intros Hsource. unfold readable, copies. rewrite Hsource, lookup_insert_eq.
  reflexivity.
Qed.

Lemma staged_input tempdir name content fs :
  staged tempdir name content fs !! path_join tempdir name = Some (File content).
Proof. unfold staged. apply lookup_insert_eq. Qed.

(** X1: when the LaTeX process ends with return code zero and leaves a
    readable [code.pdf], [run_latex] returns exactly the bytes of that
    file, and the world it leaves is the one the process left, less the
    temporary directory. *)
Theorem run_latex_returns_output
    tempdir w code source command exit effect output :
  fresh_dir tempdir w →
  Utf8.encode code = Some source →
  returncode_of exit = 0%Z →
  readable (effect (staged tempdir (lit "code.tex") source (files w)))
    (path_join tempdir (lit "code.pdf")) = Some output →
  Tikz.run_latex tempdir (Runs exit effect) code command w
  = (Return output,
     cleaned tempdir
       (set_files effect
          (launched_in tempdir (lit "code.tex") source (command ++ [lit "code.tex"]) w))).
Proof.
  intros Hfresh Henc Hrc Hpdf.
  rewrite (run_latex_runs _ _ Hfresh _ _ _ _ _ Henc).
  rewrite (truthy_returncode_zero _ Hrc). cbn [files launched_in set_files].
  rewrite Hpdf. reflexivity.
Qed.

Lemma run_latex_returns_output_witness :
  fresh_dir tmpdir empty_world ∧
  Utf8.encode (lit "x") = Some (blit "x") ∧
  returncode_of (Exited 0) = 0%Z ∧
  (Tikz.run_latex tmpdir
     (Runs (Exited 0) (writes (path_join tmpdir (lit "code.pdf")) (blit "%PDF-1.5")))
     (lit "x") Tikz.DEFAULT_PDFLATEX empty_world).1
  = Return (blit "%PDF-1.5").
Proof.
  split; [apply empty_world_fresh|]. split; [reflexivity|]. split; [reflexivity|].
  rewrite (run_latex_returns_output tmpdir empty_world (lit "x") (blit "x")
             Tikz.DEFAULT_PDFLATEX (Exited 0)
             (writes (path_join tmpdir (lit "code.pdf")) (blit "%PDF-1.5"))
             (blit "%PDF-1.5") (empty_world_fresh tmpdir) eq_refl eq_refl eq_refl).
  reflexivity.
Defined.

(** X2: a return code of zero is not enough.  When the process ends with
    return code zero but the expected output file cannot be read, each
    invoker raises its error with that return code and the marker
    [no output created]. *)
Theorem missing_output_is_an_error
    tempdir w code source pdf_content command exit effect :
  fresh_dir tempdir w →
  Utf8.encode code = Some source →
  returncode_of exit = 0%Z →
  (readable (effect (staged tempdir (lit "code.tex") source (files w)))
     (path_join tempdir (lit "code.pdf")) = None →
   (Tikz.run_latex tempdir (Runs exit effect) code command w).1
   = Raise (LatexError (command ++ [lit "code.tex"]) 0
              (lit "no output created") code)) ∧
  (readable (effect (staged tempdir (lit "inpdf.pdf") pdf_content (files w)))
     (path_join tempdir (lit "outsvg.svg")) = None →
   (Tikz.convert_pdf2svg tempdir (Runs exit effect) pdf_content command w).1
   = Raise (ConvertError (command ++ [lit "inpdf.pdf"; lit "outsvg.svg"]) 0
              (lit "no output created"))) ∧
  (readable (effect (staged tempdir (lit "inpdf.pdf") pdf_content (files w)))
     (path_join tempdir (lit "outpng.png")) = None →
   (Tikz.convert_pdf2png tempdir (Runs exit effect) pdf_content command w).1
   = Raise (ConvertError (command ++ [lit "inpdf.pdf"; lit "outpng.png"]) 0
              (lit "no output created"))).
Proof.
  intros Hfresh Henc Hrc. split; [|split]; intros Hnone.
  - rewrite (run_latex_runs _ _ Hfresh _ _ _ _ _ Henc).
    rewrite (truthy_returncode_zero _ Hrc), Hrc. cbn [fst files launched_in set_files].
    rewrite Hnone. reflexivity.
  - rewrite (convert_pdf2svg_runs _ _ Hfresh).
    rewrite (truthy_returncode_zero _ Hrc), Hrc. cbn [fst files launched_in set_files].
    rewrite Hnone. reflexivity.
  - rewrite (convert_pdf2png_runs _ _ Hfresh).
    rewrite (truthy_returncode_zero _ Hrc), Hrc. cbn [fst files launched_in set_files].
    rewrite Hnone. reflexivity.
Qed.

Lemma missing_output_is_an_error_witness :
  fresh_dir tmpdir empty_world ∧
  Utf8.encode (lit "x") = Some (blit "x") ∧
  returncode_of (Exited 0) = 0%Z ∧
  (Tikz.convert_pdf2png tmpdir (Runs (Exited 0) idle) (blit "%PDF-1.5")
     Tikz.DEFAULT_PDF2PNG empty_world).1
  = Raise (ConvertError (Tikz.DEFAULT_PDF2PNG ++ [lit "inpdf.pdf"; lit "outpng.png"]) 0
             (lit "no output created")).
Proof.
  split; [apply empty_world_fresh|]. split; [reflexivity|]. split; [reflexivity|].
  destruct (missing_output_is_an_error tmpdir empty_world (lit "x") (blit "x")
              (blit "%PDF-1.5") Tikz.DEFAULT_PDF2PNG (Exited 0) idle
              (empty_world_fresh tmpdir) eq_refl eq_refl)
    as (_ & _ & Hpng).
  apply Hpng. reflexivity.
Defined.

(** X3: the source reaches LaTeX intact.  With a process that just
    copies [code.tex] to [code.pdf], [run_latex] returns the UTF-8
    encoding of the source, which decodes to the source again. *)
Theorem run_latex_echo tempdir w code source command :
  fresh_dir tempdir w →
  Utf8.encode code = Some source →
  (Tikz.run_latex tempdir
     (Runs (Exited 0)
        (copies (path_join tempdir (lit "code.tex"))
                (path_join tempdir (lit "code.pdf"))))
     code command w).1 = Return source ∧
  Utf8.decode source = Some code.
Proof.
  intros Hfresh Henc. split; [|apply utf8_decode_encode, Henc].
  rewrite (run_latex_runs _ _ Hfresh _ _ _ _ _ Henc).
  cbn [fst returncode_of files launched_in set_files].
  change (Tikz.truthy (Z.of_N 0)) with false. cbv iota.
  rewrite (copies_readable _ _ source); [reflexivity|apply staged_input].
Qed.

Lemma run_latex_echo_witness :
  fresh_dir tmpdir empty_world ∧
  Utf8.encode [0x5C; 0x3B1; 0x20AC] = Some [x5c; xce; xb1; xe2; x82; xac] ∧
  (Tikz.run_latex tmpdir
     (Runs (Exited 0)
        (copies (path_join tmpdir (lit "code.tex"))
                (path_join tmpdir (lit "code.pdf"))))
     [0x5C; 0x3B1; 0x20AC] Tikz.DEFAULT_PDFLATEX empty_world).1
  = Return [x5c; xce; xb1; xe2; x82; xac] ∧
  Utf8.decode [x5c; xce; xb1; xe2; x82; xac] = Some [0x5C; 0x3B1; 0x20AC].
Proof.
  split; [apply empty_world_fresh|]. split; [reflexivity|].
  apply (run_latex_echo tmpdir empty_world [0x5C; 0x3B1; 0x20AC]
           [x5c; xce; xb1; xe2; x82; xac] Tikz.DEFAULT_PDFLATEX
           (empty_world_fresh tmpdir) eq_refl).
Defined.

(** X4: the converters pass bytes through untouched.  With a converter
    that just copies its input file to its output file,
    [convert_pdf2png] returns the PDF bytes it was given, whatever they
    are, and [convert_pdf2svg] returns their decoding when they are
    valid UTF-8. *)
Theorem converters_echo tempdir w pdf_content command text :
  fresh_dir tempdir w →
  (Tikz.convert_pdf2png tempdir
     (Runs (Exited 0)
        (copies (path_join tempdir (lit "inpdf.pdf"))
                (path_join tempdir (lit "outpng.png"))))
     pdf_content command w).1 = Return pdf_content ∧
  (Utf8.decode pdf_content = Some text →
   (Tikz.convert_pdf2svg tempdir
      (Runs (Exited 0)
         (copies (path_join tempdir (lit "inpdf.pdf"))
                 (path_join tempdir (lit "outsvg.svg"))))
      pdf_content command w).1 = Return text).
Proof.
  intros Hfresh. split.
  - rewrite (convert_pdf2png_runs _ _ Hfresh).
    cbn [fst returncode_of files launched_in set_files].
    change (Tikz.truthy (Z.of_N 0)) with false. cbv iota.
    rewrite (copies_readable _ _ pdf_content); [reflexivity|apply staged_input].
  - intros Hdec. rewrite (convert_pdf2svg_runs _ _ Hfresh).
    cbn [fst returncode_of files launched_in set_files].
    change (Tikz.truthy (Z.of_N 0)) with false. cbv iota.
    rewrite (copies_readable _ _ pdf_content); [|apply staged_input].
    rewrite Hdec. reflexivity.
Qed.

Lemma converters_echo_witness :
  fresh_dir tmpdir empty_world ∧
  (Tikz.convert_pdf2png tmpdir
     (Runs (Exited 0)
        (copies (path_join tmpdir (lit "inpdf.pdf"))
                (path_join tmpdir (lit "outpng.png"))))
     [x25; xff; x00] Tikz.DEFAULT_PDF2PNG empty_world).1 = Return [x25; xff; x00].
Proof.
  split; [apply empty_world_fresh|].
  apply (converters_echo tmpdir empty_world [x25; xff; x00] Tikz.DEFAULT_PDF2PNG []
           (empty_world_fresh tmpdir)).
Defined.

Ltac frame_close Hout Halone :=
  cbn [snd fst files trace set_files is_OSError];
  rewrite rmtree_lookup_outside by exact Hout;
  rewrite ?Halone; rewrite ?lookup_insert_ne by assumption; reflexivity.

Lemma run_latex_frame tempdir c code command w p :
  ¬ tempdir `prefix_of` p → leaves_alone c p →
  files (Tikz.run_latex tempdir c code command w).2 !! p = files w !! p.
Proof.
  intros Hout Halone.
  assert (Hdir : tempdir ≠ p) by (intros ->; apply Hout; reflexivity).
  assert (Hin : path_join tempdir (lit "code.tex") ≠ p)
    by (apply (outside_neq tempdir); [apply path_join_below | exact Hout]).
  unfold Tikz.run_latex. py_unfold. cbn [files trace].
  destruct (writable _ _); [|frame_close Hout Halone].
  destruct (Utf8.encode code); [|frame_close Hout Halone].
  destruct c as [msg|exit effect]; cbn [is_OSError leaves_alone] in *;
    [frame_close Hout Halone|].
  destruct (Tikz.truthy _).
  - cbn [files]. destruct (readable _ _) as [log|]; cbn [is_OSError];
      [|frame_close Hout Halone].
    destruct (Utf8.decode log); frame_close Hout Halone.
  - cbn [files]. destruct (readable _ _); frame_close Hout Halone.
Qed.

Lemma convert_pdf2png_frame tempdir c pdf_content command w p :
  ¬ tempdir `prefix_of` p → leaves_alone c p →
  files (Tikz.convert_pdf2png tempdir c pdf_content command w).2 !! p = files w !! p.
Proof.
  intros Hout Halone.
  assert (Hdir : tempdir ≠ p) by (intros ->; apply Hout; reflexivity).
  assert (Hin : path_join tempdir (lit "inpdf.pdf") ≠ p)
    by (apply (outside_neq tempdir); [apply path_join_below | exact Hout]).
  unfold Tikz.convert_pdf2png. py_unfold. cbn [files trace].
  destruct (writable _ _); [|frame_close Hout Halone].
  destruct c as [msg|exit effect]; cbn [is_OSError leaves_alone] in *;
    [frame_close Hout Halone|].
  destruct (Tikz.truthy _); [frame_close Hout Halone|].
  cbn [files]. destruct (readable _ _); frame_close Hout Halone.
Qed.

(** X5: the file-based invokers touch nothing outside their temporary
    directory: a file elsewhere that the child process leaves alone is
    the same after the call as before, however the call ends. *)
Theorem invokers_leave_other_files_alone
    tempdir c code pdf_content command w p :
  ¬ tempdir `prefix_of` p →
  leaves_alone c p →
  files (Tikz.run_latex tempdir c code command w).2 !! p = files w !! p ∧
  files (Tikz.convert_pdf2svg tempdir c pdf_content command w).2 !! p = files w !! p ∧
  files (Tikz.convert_pdf2png tempdir c pdf_content command w).2 !! p = files w !! p.
Proof.
  intros Hout Halone. split; [|split].
  - apply run_latex_frame; assumption.
  - apply convert_pdf2svg_frame; assumption.
  - apply convert_pdf2png_frame; assumption.
Qed.

Lemma invokers_leave_other_files_alone_witness :
  ¬ tmpdir `prefix_of` [lit "notebook.ipynb"] ∧
  leaves_alone produces_all [lit "notebook.ipynb"] ∧
  files (Tikz.run_latex tmpdir produces_all (lit "x") Tikz.DEFAULT_PDFLATEX
           {| files := {[ [lit "notebook.ipynb"] := File (blit "{}") ]}; trace := [] |}).2
    !! [lit "notebook.ipynb"] = Some (File (blit "{}")).
Proof.
  assert (Hout : ¬ tmpdir `prefix_of` [lit "notebook.ipynb"]).
  { intros [k Hk]. vm_compute in Hk. discriminate Hk. }
  assert (Halone : leaves_alone produces_all [lit "notebook.ipynb"]).
  { intros fs. unfold writes. rewrite !lookup_insert_ne; [reflexivity|..];
      intros H; vm_compute in H; discriminate H. }
  split; [exact Hout|]. split; [exact Halone|].
  destruct (invokers_leave_other_files_alone tmpdir produces_all (lit "x") []
              Tikz.DEFAULT_PDFLATEX
              {| files := {[ [lit "notebook.ipynb"] := File (blit "{}") ]}; trace := [] |}
              [lit "notebook.ipynb"] Hout Halone) as [Hlatex _].
  rewrite Hlatex. cbn [files]. apply lookup_singleton_eq.
Defined.

Lemma rmtree_fresh (tempdir : path) (w : world) (fs : gmap path node) :
  fresh_dir tempdir w →
  (∀ q, ¬ tempdir `prefix_of` q → fs !! q = files w !! q) →
  rmtree tempdir fs = files w.
Proof.
  intros Hfresh Hsame. apply map_eq. intros q.
  destruct (decide (tempdir `prefix_of` q)) as [Hin|Hout].
  - rewrite rmtree_lookup_below by exact Hin. symmetry. apply Hfresh, Hin.
  - rewrite rmtree_lookup_outside by exact Hout. apply Hsame, Hout.
Qed.

Lemma staged_outside tempdir name content fs q :
  ¬ tempdir `prefix_of` q → staged tempdir name content fs !! q = fs !! q.
Proof.
  intros Hout. unfold staged. rewrite !lookup_insert_ne; [reflexivity|..].
  - intros ->. apply Hout. reflexivity.
  - apply (outside_neq tempdir); [apply path_join_below | exact Hout].
Qed.

(** X6: a call whose child keeps to its working directory leaves the
    filesystem exactly as it found it.  In a fresh temporary directory,
    if the child (when it runs) changes nothing outside that directory,
    the files after [run_latex], [convert_pdf2svg] or [convert_pdf2png]
    are the files before, whether the call returns or raises. *)
Theorem invokers_leave_no_files tempdir c code source pdf_content command w :
  fresh_dir tempdir w →
  Utf8.encode code = Some source →
  (∀ p, ¬ tempdir `prefix_of` p → leaves_alone c p) →
  files (Tikz.run_latex tempdir c code command w).2 = files w ∧
  files (Tikz.convert_pdf2svg tempdir c pdf_content command w).2 = files w ∧
  files (Tikz.convert_pdf2png tempdir c pdf_content command w).2 = files w.
Proof.
  intros Hfresh Henc Hconfined.
  assert (Hclean : ∀ name content command',
            files (cleaned tempdir
                     (match c with
                      | LaunchFails _ => launched_in tempdir name content command' w
                      | Runs _ effect =>
                          set_files effect (launched_in tempdir name content command' w)
                      end)) = files w).
  { intros name content command'. unfold cleaned.
    destruct c as [msg|exit effect]; cbn [files set_files launched_in];
      apply (rmtree_fresh _ _ _ Hfresh); intros q Hout.
    - apply staged_outside, Hout.
    - specialize (Hconfined q Hout). cbn [leaves_alone] in Hconfined.
      rewrite Hconfined. apply staged_outside, Hout. }
  split; [|split].
  - destruct c as [msg|exit effect].
    + rewrite (run_latex_launch_fails _ _ Hfresh _ _ _ _ Henc). apply Hclean.
    + rewrite (run_latex_runs _ _ Hfresh _ _ _ _ _ Henc). apply Hclean.
  - destruct c as [msg|exit effect].
    + rewrite (convert_pdf2svg_launch_fails _ _ Hfresh). apply Hclean.
    + rewrite (convert_pdf2svg_runs _ _ Hfresh). apply Hclean.
  - destruct c as [msg|exit effect].
    + rewrite (convert_pdf2png_launch_fails _ _ Hfresh). apply Hclean.
    + rewrite (convert_pdf2png_runs _ _ Hfresh). apply Hclean.
Qed.

Lemma invokers_leave_no_files_witness :
  fresh_dir tmpdir empty_world ∧
  Utf8.encode (lit "x") = Some (blit "x") ∧
  (∀ p, ¬ tmpdir `prefix_of` p → leaves_alone produces_all p) ∧
  files (Tikz.run_latex tmpdir produces_all (lit "x") Tikz.DEFAULT_PDFLATEX
           empty_world).2 = files empty_world.
Proof.
  assert (Hconfined : ∀ p, ¬ tmpdir `prefix_of` p → leaves_alone produces_all p).
  { intros p Hout fs. unfold writes.
    rewrite !lookup_insert_ne; [reflexivity|..];
      apply (outside_neq tmpdir); try exact Hout; apply path_join_below. }
  split; [apply empty_world_fresh|]. split; [reflexivity|]. split; [exact Hconfined|].
  destruct (invokers_leave_no_files tmpdir produces_all (lit "x") (blit "x") []
              Tikz.DEFAULT_PDFLATEX empty_world (empty_world_fresh tmpdir) eq_refl
              Hconfined) as [Hlatex _].
  exact Hlatex.
Defined.

(** X7: each file-based invoker writes one input file and then asks for
    exactly one process, in the temporary directory, with the command
    followed by the fixed file names: [code.tex] for LaTeX,
    [inpdf.pdf outsvg.svg] and [inpdf.pdf outpng.png] for the
    converters.  This is all it does, whatever becomes of the process. *)
Theorem invokers_launch_once tempdir c code source pdf_content command w :
  fresh_dir tempdir w →
  Utf8.encode code = Some source →
  trace (Tikz.run_latex tempdir c code command w).2
  = trace w ++ [Wrote (path_join tempdir (lit "code.tex")) source;
                Exec (command ++ [lit "code.tex"]) (Some tempdir)] ∧
  trace (Tikz.convert_pdf2svg tempdir c pdf_content command w).2
  = trace w ++ [Wrote (path_join tempdir (lit "inpdf.pdf")) pdf_content;
                Exec (command ++ [lit "inpdf.pdf"; lit "outsvg.svg"]) (Some tempdir)] ∧
  trace (Tikz.convert_pdf2png tempdir c pdf_content command w).2
  = trace w ++ [Wrote (path_join tempdir (lit "inpdf.pdf")) pdf_content;
                Exec (command ++ [lit "inpdf.pdf"; lit "outpng.png"]) (Some tempdir)].
Proof.
  intros Hfresh Henc. split; [|split]; destruct c as [msg|exit effect].
  - rewrite (run_latex_launch_fails _ _ Hfresh _ _ _ _ Henc). reflexivity.
  - rewrite (run_latex_runs _ _ Hfresh _ _ _ _ _ Henc). reflexivity.
  - rewrite (convert_pdf2svg_launch_fails _ _ Hfresh). reflexivity.
  - rewrite (convert_pdf2svg_runs _ _ Hfresh). reflexivity.
  - rewrite (convert_pdf2png_launch_fails _ _ Hfresh). reflexivity.
  - rewrite (convert_pdf2png_runs _ _ Hfresh). reflexivity.
Qed.

Lemma invokers_launch_once_witness :
  fresh_dir tmpdir empty_world ∧
  Utf8.encode (lit "x") = Some (blit "x") ∧
  trace (Tikz.run_latex tmpdir (LaunchFails (lit "[Errno 2]")) (lit "x")
           Tikz.DEFAULT_PDFLATEX empty_world).2
  = [Wrote (path_join tmpdir (lit "code.tex")) (blit "x");
     Exec [lit "pdflatex"; lit "-shell-escape"; lit "-interaction=nonstopmode";
           lit "code.tex"] (Some tmpdir)].
Proof.
  split; [apply empty_world_fresh|]. split; [reflexivity|].
  destruct (invokers_launch_once tmpdir (LaunchFails (lit "[Errno 2]")) (lit "x")
              (blit "x") [] Tikz.DEFAULT_PDFLATEX empty_world
              (empty_world_fresh tmpdir) eq_refl) as [Hlatex _].
  exact Hlatex.
Defined.

(** X8: a source that cannot be encoded stops [run_latex] before
    anything is launched: the call raises [UnicodeEncodeError] and
    leaves the world, files and trace, exactly as it found it. *)
Theorem run_latex_unencodable tempdir c code command w :
  fresh_dir tempdir w →
  Utf8.encode code = None →
  Tikz.run_latex tempdir c code command w = (Raise UnicodeEncodeError, w).
Proof.
  intros Hfresh Henc. unfold Tikz.run_latex. py_unfold. cbn [files trace].
  rewrite (writable_in_tempdir _ _ _ Hfresh), Henc. cbn [files trace].
  destruct w as [fs events]. cbn [files trace] in *. f_equal. f_equal.
  apply (rmtree_fresh tempdir {| files := fs; trace := events |}); [exact Hfresh|].
  intros q Hout. cbn [files]. rewrite !lookup_insert_ne; [reflexivity|..].
  - intros ->. apply Hout. reflexivity.
  - apply (outside_neq tempdir); [apply path_join_below | exact Hout].
Qed.

Lemma run_latex_unencodable_witness :
  fresh_dir tmpdir empty_world ∧
  Utf8.encode lone_surrogate = None ∧
  Tikz.run_latex tmpdir produces_all lone_surrogate Tikz.DEFAULT_PDFLATEX empty_world
  = (Raise UnicodeEncodeError, empty_world).
Proof.
  split; [apply empty_world_fresh|]. split; [reflexivity|].
  apply (run_latex_unencodable tmpdir produces_all lone_surrogate Tikz.DEFAULT_PDFLATEX
           empty_world (empty_world_fresh tmpdir) eq_refl).
Defined.

(** ** The Graphviz invoker and its magic *)

(** X9: [graphviz] starts the process before it encodes the source.  A
    source that cannot be encoded makes the call raise
    [UnicodeEncodeError] after the launch has been asked for; when the
    launch itself fails, that [OSError] comes first. *)
Theorem graphviz_encodes_after_launch p code options fmt cmd w :
  Utf8.encode code = None →
  Graphviz.graphviz p code options fmt cmd w
  = (Raise match p with
           | PipeLaunchFails msg => OSError msg
           | PipeRuns _ _ _ _ => UnicodeEncodeError
           end,
     record (Exec ([Graphviz.Command_value cmd] ++ options ++
                   [lit "-T"; Graphviz.Format_value fmt]) None) w).
Proof.
  intros Henc. destruct p as [msg|communicates stdout stderr exit].
  - apply graphviz_launch_fails.
  - apply graphviz_unencodable, Henc.
Qed.

Lemma graphviz_encodes_after_launch_witness :
  Utf8.encode lone_surrogate = None ∧
  Graphviz.graphviz dot_ok lone_surrogate [] Graphviz.SVG Graphviz.DOT empty_world
  = (Raise UnicodeEncodeError,
     {| files := ∅; trace := [Exec [lit "dot"; lit "-T"; lit "svg"] None] |}).
Proof.
  split; [reflexivity|].
  apply (graphviz_encodes_after_launch dot_ok lone_surrogate [] Graphviz.SVG
           Graphviz.DOT empty_world eq_refl).
Defined.

(** X10: once the process is launched, an [OSError] from [communicate]
    does not escape.  [graphviz] reads what is left in the pipes and
    goes on as if [communicate] had delivered it, so the call ends the
    same way, and never in an [OSError]. *)
Theorem graphviz_absorbs_communicate_failure
    communicates stdout stderr exit code options fmt cmd w :
  Graphviz.graphviz (PipeRuns communicates stdout stderr exit) code options fmt cmd w
  = Graphviz.graphviz (PipeRuns true stdout stderr exit) code options fmt cmd w ∧
  ∀ msg,
    (Graphviz.graphviz (PipeRuns communicates stdout stderr exit)
       code options fmt cmd w).1 ≠ Raise (OSError msg).
Proof.
  destruct (Utf8.encode code) as [input|] eqn:Henc.
  - rewrite !(graphviz_runs _ _ _ _ _ _ _ _ _ _ Henc). split; [reflexivity|].
    intros msg. cbn [fst].
    destruct (negb _); [destruct (Utf8.decode stderr); discriminate|].
    destruct fmt; try discriminate; destruct (Utf8.decode stdout); discriminate.
  - rewrite !(graphviz_unencodable _ _ _ _ _ _ _ _ _ Henc). split; [reflexivity|].
    intros msg. discriminate.
Qed.

(** X11: [graphviz] looks at one stream only.  When the return code is
    zero, what the process wrote to standard error is dropped: the call
    ends the same way whatever it was.  When the return code is not
    zero, what it wrote to standard output is dropped. *)
Theorem graphviz_ignores_other_stream
    communicates stdout stderr exit code options fmt cmd w :
  (returncode_of exit = 0%Z →
   ∀ stderr',
     Graphviz.graphviz (PipeRuns communicates stdout stderr exit) code options fmt cmd w
     = Graphviz.graphviz (PipeRuns communicates stdout stderr' exit)
         code options fmt cmd w) ∧
  (returncode_of exit ≠ 0%Z →
   ∀ stdout',
     Graphviz.graphviz (PipeRuns communicates stdout stderr exit) code options fmt cmd w
     = Graphviz.graphviz (PipeRuns communicates stdout' stderr exit)
         code options fmt cmd w).
Proof.
  split; intros Hrc other; destruct (Utf8.encode code) as [input|] eqn:Henc;
    try (rewrite !(graphviz_unencodable _ _ _ _ _ _ _ _ _ Henc); reflexivity);
    rewrite !(graphviz_runs _ _ _ _ _ _ _ _ _ _ Henc).
  - apply Z.eqb_eq in Hrc. rewrite Hrc. reflexivity.
  - apply Z.eqb_neq in Hrc. rewrite Hrc. reflexivity.
Qed.

Lemma graphviz_ignores_other_stream_witness :
  returncode_of (Exited 0) = 0%Z ∧
  returncode_of (Exited 1) ≠ 0%Z ∧
  Graphviz.graphviz (PipeRuns true (blit "<svg/>") (blit "Warning: no size") (Exited 0))
    (lit "graph {}") [] Graphviz.SVG Graphviz.DOT empty_world
  = Graphviz.graphviz (PipeRuns true (blit "<svg/>") [] (Exited 0))
      (lit "graph {}") [] Graphviz.SVG Graphviz.DOT empty_world ∧
  Graphviz.graphviz (PipeRuns true (blit "<svg/>") (blit "Error") (Exited 1))
    (lit "graph {}") [] Graphviz.SVG Graphviz.DOT empty_world
  = Graphviz.graphviz (PipeRuns true [] (blit "Error") (Exited 1))
      (lit "graph {}") [] Graphviz.SVG Graphviz.DOT empty_world.
Proof.
  split; [reflexivity|]. split; [discriminate|]. split.
  - destruct (graphviz_ignores_other_stream true (blit "<svg/>")
                (blit "Warning: no size") (Exited 0) (lit "graph {}") []
                Graphviz.SVG Graphviz.DOT empty_world) as [Hzero _].
    apply Hzero. reflexivity.
  - destruct (graphviz_ignores_other_stream true (blit "<svg/>") (blit "Error")
                (Exited 1) (lit "graph {}") [] Graphviz.SVG Graphviz.DOT
                empty_world) as [_ Hnonzero].
    apply Hnonzero. discriminate.
Defined.

(** ** Enum lookups and argument choices *)

Lemma lookup_member_Return {E} (value_of : E -> str) members value member :
  lookup_member value_of members value = Return member →
  In member members ∧ value_of member = value.
Proof.
  unfold lookup_member.
  destruct (find _ members) as [found|] eqn:Hfind; [|discriminate].
  intros [= <-]. apply find_some in Hfind as [Hin Heq]. split; [exact Hin|].
  apply bool_decide_eq_true in Heq. exact Heq.
Qed.

Lemma lookup_member_Raise {E} (value_of : E -> str) members value :
  (∀ member, In member members → value_of member ≠ value) →
  lookup_member value_of members value = Raise ValueError.
Proof.
  intros Hnone. unfold lookup_member.
  destruct (find _ members) as [found|] eqn:Hfind; [|reflexivity].
  apply find_some in Hfind as [Hin Heq]. apply bool_decide_eq_true in Heq.
  destruct (Hnone found Hin Heq).
Qed.

(** X12: looking an enum member up by its value gives the member back,
    for [Command] and for both [Format] enums; a lookup that succeeds
    was given the value of the member it returns; and a text that is
    the value of no member raises [ValueError]. *)
Theorem enum_lookup_round_trip :
  (∀ c, GraphvizArguments.Command_of_value (Graphviz.Command_value c) = Return c) ∧
  (∀ f, GraphvizArguments.Format_of_value (Graphviz.Format_value f) = Return f) ∧
  (∀ f, TikzArguments.Format_of_value (TikzArguments.Format_value f) = Return f) ∧
  (∀ value c, GraphvizArguments.Command_of_value value = Return c →
              value = Graphviz.Command_value c) ∧
  (∀ value f, GraphvizArguments.Format_of_value value = Return f →
              value = Graphviz.Format_value f) ∧
  (∀ value f, TikzArguments.Format_of_value value = Return f →
              value = TikzArguments.Format_value f) ∧
  (∀ value, (∀ c, Graphviz.Command_value c ≠ value) →
            GraphvizArguments.Command_of_value value = Raise ValueError) ∧
  (∀ value, (∀ f, Graphviz.Format_value f ≠ value) →
            GraphvizArguments.Format_of_value value = Raise ValueError) ∧
  (∀ value, (∀ f, TikzArguments.Format_value f ≠ value) →
            TikzArguments.Format_of_value value = Raise ValueError).
Proof.
  repeat split.
  - intros []; vm_compute; reflexivity.
  - intros []; vm_compute; reflexivity.
  - intros []; vm_compute; reflexivity.
  - intros value c H. apply lookup_member_Return in H as [_ H]. symmetry. exact H.
  - intros value f H. apply lookup_member_Return in H as [_ H]. symmetry. exact H.
  - intros value f H. apply lookup_member_Return in H as [_ H]. symmetry. exact H.
  - intros value Hnone. apply lookup_member_Raise. intros c _. apply Hnone.
  - intros value Hnone. apply lookup_member_Raise. intros f _. apply Hnone.
  - intros value Hnone. apply lookup_member_Raise. intros f _. apply Hnone.
Qed.

Lemma enum_lookup_round_trip_witness :
  GraphvizArguments.Command_of_value (lit "neato") = Return Graphviz.NEATO ∧
  (∀ c, Graphviz.Command_value c ≠ lit "sfdp") ∧
  GraphvizArguments.Command_of_value (lit "sfdp") = Raise ValueError.
Proof.
  assert (Hnone : ∀ c, Graphviz.Command_value c ≠ lit "sfdp")
    by (intros []; vm_compute; discriminate).
  destruct enum_lookup_round_trip as (Hcommand & _ & _ & _ & _ & _ & Hraise & _).
  split; [apply (Hcommand Graphviz.NEATO)|]. split; [exact Hnone|].
  apply Hraise. exact Hnone.
Defined.

(** X13: the choices offered for [--command] are exactly the values of
    the [Command] enum, so [Command(args.command)] cannot fail.  The
    choices offered for [--format] are exactly the values of the formats
    that have an entry in [_FORMAT_TO_DISPLAY]: the Graphviz magic never
    ends in a [KeyError], while [pdf] and [ps], which [graphviz] itself
    accepts, cannot be asked for on the magic line. *)
Theorem choices_match_the_enums :
  (∀ value, In value GraphvizArguments.command_choices ↔
            ∃ c, GraphvizArguments.Command_of_value value = Return c) ∧
  (∀ f, In (Graphviz.Format_value f) GraphvizArguments.format_choices ↔
        is_Some (Graphviz._FORMAT_TO_DISPLAY f)) ∧
  (∀ value, In value GraphvizArguments.format_choices →
            ∃ choice, GraphvizArguments.Format_of_value value
                      = Return (Graphviz.Format_of_choice choice)) ∧
  (∀ p args cell w key,
     (Graphviz.GraphvizMagics_graphviz p args cell w).1 ≠ Raise (KeyError key)).
Proof.
  split; [|split; [|split]].
  - intros value. split.
    + intros Hin. cbn in Hin.
      destruct Hin as [<-|[<-|[<-|[<-|[<-|[]]]]]]; eexists; vm_compute; reflexivity.
    + intros [c Hc]. apply lookup_member_Return in Hc as [_ <-].
      destruct c; vm_compute; tauto.
  - intros f. split.
    + intros Hin. destruct f; cbn [Graphviz._FORMAT_TO_DISPLAY]; eauto;
        exfalso; vm_compute in Hin; destruct Hin as [H|[H|[]]]; discriminate H.
    + intros [constructor Hsome]. destruct f; try discriminate Hsome;
        vm_compute; tauto.
  - intros value Hin. cbn in Hin. destruct Hin as [<-|[<-|[]]].
    + exists Graphviz.choice_png. vm_compute. reflexivity.
    + exists Graphviz.choice_svg. vm_compute. reflexivity.
  - intros p args cell w key. unfold Graphviz.GraphvizMagics_graphviz, bind.
    destruct p as [msg|communicates stdout stderr exit].
    { rewrite graphviz_launch_fails. discriminate. }
    destruct (Utf8.encode cell) as [input|] eqn:Henc.
    2:{ rewrite (graphviz_unencodable _ _ _ _ _ _ _ _ _ Henc). discriminate. }
    rewrite (graphviz_runs _ _ _ _ _ _ _ _ _ _ Henc).
    destruct (negb _); [destruct (Utf8.decode stderr); discriminate|].
    destruct (Graphviz.format args); cbn [Graphviz.Format_of_choice];
      [|destruct (Utf8.decode stdout)]; discriminate.
Qed.

Lemma choices_match_the_enums_witness :
  In (lit "twopi") GraphvizArguments.command_choices ∧
  (∃ c, GraphvizArguments.Command_of_value (lit "twopi") = Return c) ∧
  In (lit "png") GraphvizArguments.format_choices ∧
  ∃ choice, GraphvizArguments.Format_of_value (lit "png")
            = Return (Graphviz.Format_of_choice choice).
Proof.
  destruct choices_match_the_enums as (Hcommand & _ & Hformat & _).
  assert (Htwopi : In (lit "twopi") GraphvizArguments.command_choices)
    by (vm_compute; tauto).
  assert (Hpng : In (lit "png") GraphvizArguments.format_choices)
    by (vm_compute; tauto).
  split; [exact Htwopi|]. split; [apply Hcommand, Htwopi|].
  split; [exact Hpng|]. apply Hformat, Hpng.
Defined.

(** ** The TikZ magic, step by step *)

Lemma tikz_unfolded latex_dir latex convert_dir converter line cell w :
  Tikz.tikz latex_dir latex convert_dir converter line cell w =
  (pdf_content <- Tikz.run_latex latex_dir latex
                    (tikz_document (Tikz.parse_argstring line) cell)
                    Tikz.DEFAULT_PDFLATEX ;;
   tikz_after_latex convert_dir converter (Tikz.parse_argstring line) pdf_content) w.
Proof.
  unfold Tikz.tikz. unfold bind at 1. unfold Template.substitute at 1.
  rewrite tikz_picture_shape. unfold bind at 1. unfold Template.substitute at 1.
  rewrite latex_document_shape.
  unfold Tikz.latex_packages, Tikz.tikz_libraries. rewrite !append_loop_map.
  reflexivity.
Qed.

(** X14: assembling the document cannot fail, and nothing in the cell
    is treated as a placeholder.  Whatever the cell, the options, the
    packages and the libraries contain, dollar signs included, the TikZ
    magic hands to [run_latex] the text [tikz_document], which is
    written out in full: the fixed preamble with one
    [\usepackage{name}] per package, [\usepackage{tikz}], one
    [\usetikzlibrary{name}] per library, and the cell, unchanged, inside
    [\begin{tikzpicture}[...]], the options joined by spaces; what
    follows is the save and the branch on the format. *)
Theorem tikz_compiles_the_assembled_document
    latex_dir latex convert_dir converter line cell w :
  Tikz.tikz latex_dir latex convert_dir converter line cell w =
  (pdf_content <- Tikz.run_latex latex_dir latex
                    (tikz_document (Tikz.parse_argstring line) cell)
                    Tikz.DEFAULT_PDFLATEX ;;
   tikz_after_latex convert_dir converter (Tikz.parse_argstring line) pdf_content) w.
Proof.
  unfold Tikz.tikz. unfold bind at 1. unfold Template.substitute at 1.
  rewrite tikz_picture_shape. unfold bind at 1. unfold Template.substitute at 1.
  rewrite latex_document_shape.
  unfold Tikz.latex_packages, Tikz.tikz_libraries. rewrite !append_loop_map.
  reflexivity.
Qed.

(** The document at a concrete cell, read off the error raised when
    [pdflatex] cannot be launched: its [code] field is the text that was
    handed to [run_latex]. *)
Example tikz_document_in_full :
  (Tikz.tikz tmpdir (LaunchFails (lit "[Errno 2]")) tmpdir' (Runs (Exited 0) idle)
     {| Tikz.given_format := None; Tikz.given_library := Some [lit "automata"];
        Tikz.given_package := Some [lit "pgfplots"; lit "siunitx"];
        Tikz.given_options := Some [lit "scale=2"; lit "thick"];
        Tikz.given_save := None |}
     (lit "\node {$x_1$};") empty_world).1
  = Raise (LatexError [lit "pdflatex"; lit "-shell-escape"; lit "-interaction=nonstopmode";
                       lit "code.tex"] (-1) (lit "[Errno 2]") (lit "
\documentclass{article}

\usepackage[utf8]{inputenc}
\usepackage[T1]{fontenc}

\usepackage{amsmath}
\usepackage{amsfonts}
\usepackage{amssymb}

\usepackage{pgfplots}
\usepackage{siunitx}

\usepackage{tikz}

\usetikzlibrary{automata}
\usetikzlibrary{arrows}
\usetikzlibrary{snakes}
\usetikzlibrary{backgrounds}
\usetikzlibrary{patterns}
\usetikzlibrary{matrix}
\usetikzlibrary{shapes}
\usetikzlibrary{fit}
\usetikzlibrary{calc}
\usetikzlibrary{shadows}
\usetikzlibrary{plotmarks}

\usepackage[graphics,tightpage,active]{preview}

\PreviewEnvironment{tikzpicture}
\PreviewEnvironment{equation}
\PreviewEnvironment{equation*}

\newlength{\imagewidth}
\newlength{\imagescale}

\pagestyle{empty}
\thispagestyle{empty}

\begin{document}

\begin{tikzpicture}[scale=2 thick]
\node {$x_1$};
\end{tikzpicture}

\end{document}")).
Proof. vm_compute. reflexivity. Qed.

Example tikz_cell_with_dollars :
  Template.scan [(lit "options", []); (lit "code", lit "\node {$x_1 = ${y}$};")]
    Template.Literal Tikz.tikz_picture_template
  = Return (lit "
\begin{tikzpicture}[]
\node {$x_1 = ${y}$};
\end{tikzpicture}
").
Proof. vm_compute. reflexivity. Qed.

(** X15: a failure stops the magic where it happens.  When [run_latex]
    raises, the magic raises the same exception and the world is as
    [run_latex] left it: nothing is saved, converted or published.
    When the PDF cannot be written to the file named on the magic line,
    the magic ends in that [OSError] and no converter is launched. *)
Theorem tikz_stops_at_the_first_failure
    latex_dir latex convert_dir converter line cell w w1 :
  (∀ e,
     Tikz.run_latex latex_dir latex (tikz_document (Tikz.parse_argstring line) cell)
       Tikz.DEFAULT_PDFLATEX w = (Raise e, w1) →
     Tikz.tikz latex_dir latex convert_dir converter line cell w = (Raise e, w1)) ∧
  (∀ pdf_content filename,
     Tikz.run_latex latex_dir latex (tikz_document (Tikz.parse_argstring line) cell)
       Tikz.DEFAULT_PDFLATEX w = (Return pdf_content, w1) →
     Tikz.save_target (Tikz.parse_argstring line) = Some filename →
     writable (files w1) (fspath filename) = false →
     Tikz.tikz latex_dir latex convert_dir converter line cell w
     = (Raise (OSError (lit "cannot open file for writing")), w1)).
Proof.
  split.
  - intros e Hlatex. rewrite tikz_unfolded. unfold bind at 1. rewrite Hlatex.
    reflexivity.
  - intros pdf_content filename Hlatex Hsave Hunwritable.
    rewrite tikz_unfolded. unfold bind at 1. rewrite Hlatex.
    unfold tikz_after_latex. rewrite Hsave. unfold bind at 1.
    rewrite save_step, Hunwritable. reflexivity.
Qed.

Lemma tikz_stops_at_the_first_failure_witness :
  Tikz.run_latex tmpdir (Runs (Exited 1) idle)
    (tikz_document (Tikz.parse_argstring (short_line None (Some (lit "fig.pdf"))))
       (lit "\draw (0,0) -- (1,1);"))
    Tikz.DEFAULT_PDFLATEX empty_world
  = (Raise (LatexError (Tikz.DEFAULT_PDFLATEX ++ [lit "code.tex"]) 1
              (lit "no log file created")
              (tikz_document (Tikz.parse_argstring (short_line None (Some (lit "fig.pdf"))))
                 (lit "\draw (0,0) -- (1,1);"))),
     (Tikz.run_latex tmpdir (Runs (Exited 1) idle)
        (tikz_document (Tikz.parse_argstring (short_line None (Some (lit "fig.pdf"))))
           (lit "\draw (0,0) -- (1,1);"))
        Tikz.DEFAULT_PDFLATEX empty_world).2) ∧
  (Tikz.tikz tmpdir (Runs (Exited 1) idle) tmpdir' converts_ok
     (short_line None (Some (lit "fig.pdf"))) (lit "\draw (0,0) -- (1,1);")
     empty_world).1
  = Raise (LatexError (Tikz.DEFAULT_PDFLATEX ++ [lit "code.tex"]) 1
             (lit "no log file created")
             (tikz_document (Tikz.parse_argstring (short_line None (Some (lit "fig.pdf"))))
                (lit "\draw (0,0) -- (1,1);"))).
Proof.
  assert (Hlatex :
    Tikz.run_latex tmpdir (Runs (Exited 1) idle)
      (tikz_document (Tikz.parse_argstring (short_line None (Some (lit "fig.pdf"))))
         (lit "\draw (0,0) -- (1,1);"))
      Tikz.DEFAULT_PDFLATEX empty_world
    = (Raise (LatexError (Tikz.DEFAULT_PDFLATEX ++ [lit "code.tex"]) 1
                (lit "no log file created")
                (tikz_document
                   (Tikz.parse_argstring (short_line None (Some (lit "fig.pdf"))))
                   (lit "\draw (0,0) -- (1,1);"))),
       (Tikz.run_latex tmpdir (Runs (Exited 1) idle)
          (tikz_document (Tikz.parse_argstring (short_line None (Some (lit "fig.pdf"))))
             (lit "\draw (0,0) -- (1,1);"))
          Tikz.DEFAULT_PDFLATEX empty_world).2)) by (vm_compute; reflexivity).
  split; [exact Hlatex|].
  destruct (tikz_stops_at_the_first_failure tmpdir (Runs (Exited 1) idle) tmpdir'
              converts_ok (short_line None (Some (lit "fig.pdf")))
              (lit "\draw (0,0) -- (1,1);") empty_world
              (Tikz.run_latex tmpdir (Runs (Exited 1) idle)
                 (tikz_document
                    (Tikz.parse_argstring (short_line None (Some (lit "fig.pdf"))))
                    (lit "\draw (0,0) -- (1,1);"))
                 Tikz.DEFAULT_PDFLATEX empty_world).2) as [Haborts _].
  rewrite (Haborts _ Hlatex). reflexivity.
Defined.

Lemma tikz_after_latex_png convert_dir converter args pdf_content w1 :
  Tikz.format args = Tikz.choice_png →
  tikz_after_latex convert_dir converter args pdf_content w1 =
  match Tikz.save_target args with
  | Some filename =>
      if writable (files w1) (fspath filename)
      then (Raise (NameError (lit "display")),
            {| files := <[fspath filename := File pdf_content]>
                          (<[fspath filename := File []]> (files w1));
               trace := trace w1 ++ [Wrote (fspath filename) pdf_content] |})
      else (Raise (OSError (lit "cannot open file for writing")), w1)
  | None => (Raise (NameError (lit "display")), w1)
  end.
Proof.
  intros Hpng. unfold tikz_after_latex. rewrite Hpng. cbn [Tikz.Format_of_choice].
  unfold bind at 1. destruct (Tikz.save_target args) as [filename|]; [|reflexivity].
  rewrite save_step. destruct (writable _ _); reflexivity.
Qed.

(** X16: a PNG request to the TikZ magic never gets as far as the
    converter.  The magic never returns a value and launches no
    converter; when LaTeX has produced the PDF (and the PDF, if asked
    for, has been saved), it ends in the [NameError] for [display]. *)
Theorem tikz_png_never_converts
    latex_dir latex convert_dir converter line cell w :
  Tikz.format (Tikz.parse_argstring line) = Tikz.choice_png →
  ¬ returns (Tikz.tikz latex_dir latex convert_dir converter line cell w).1 ∧
  (∃ events,
     trace (Tikz.tikz latex_dir latex convert_dir converter line cell w).2
       = trace w ++ events ∧
     Forall (fun e => ¬ conversion_event e) events) ∧
  (∀ pdf_content w1,
     Tikz.run_latex latex_dir latex (tikz_document (Tikz.parse_argstring line) cell)
       Tikz.DEFAULT_PDFLATEX w = (Return pdf_content, w1) →
     (∀ filename, Tikz.save_target (Tikz.parse_argstring line) = Some filename →
                  writable (files w1) (fspath filename) = true) →
     (Tikz.tikz latex_dir latex convert_dir converter line cell w).1
     = Raise (NameError (lit "display"))).
Proof.
  intros Hpng. rewrite tikz_unfolded.
  destruct (run_latex_events latex_dir latex
              (tikz_document (Tikz.parse_argstring line) cell) w)
    as (events1 & Htrace1 & Hnone).
  unfold bind.
  destruct (Tikz.run_latex latex_dir latex _ Tikz.DEFAULT_PDFLATEX w)
    as [[pdf_content|e] w1]; cbn [fst snd] in *.
  2:{ split; [intros []|]. split; [exists events1; auto|]. intros ? ? [=]. }
  rewrite (tikz_after_latex_png _ _ _ _ _ Hpng).
  destruct (Tikz.save_target (Tikz.parse_argstring line)) as [filename|].
  - destruct (writable (files w1) (fspath filename)) eqn:Hw; cbn [fst snd trace].
    + split; [intros []|]. split.
      * exists (events1 ++ [Wrote (fspath filename) pdf_content]). split.
        -- rewrite Htrace1, <- app_assoc. reflexivity.
        -- apply Forall_app. split; [exact Hnone|]. repeat constructor. intros [].
      * intros ? ? _ _. reflexivity.
    + split; [intros []|]. split; [exists events1; auto|].
      intros ? ? [= <- <-] Hwritable. rewrite (Hwritable filename eq_refl) in Hw.
      discriminate Hw.
  - cbn [fst snd]. split; [intros []|]. split; [exists events1; auto|].
    intros ? ? _ _. reflexivity.
Qed.

Lemma tikz_png_never_converts_witness :
  Tikz.format (Tikz.parse_argstring (short_line (Some Tikz.choice_png) None))
    = Tikz.choice_png ∧
  ¬ returns (Tikz.tikz tmpdir produces_all tmpdir' converts_ok
               (short_line (Some Tikz.choice_png) None)
               (lit "\draw (0,0) -- (1,1);") empty_world).1.
Proof.
  split; [reflexivity|].
  destruct (tikz_png_never_converts tmpdir produces_all tmpdir' converts_ok
              (short_line (Some Tikz.choice_png) None) (lit "\draw (0,0) -- (1,1);")
              empty_world eq_refl) as [Hnever _].
  exact Hnever.
Defined.

(** X17: how the steps of an SVG request compose.  When [run_latex]
    returns the PDF and the PDF, if asked for, can be written to the
    named file, the magic runs [convert_pdf2svg] on that PDF in the
    world so far.  If the conversion returns, its text is published
    under [image/svg+xml] with [isolated] set, and the magic returns
    [None]; if it raises, the magic raises the same exception and
    publishes nothing. *)
Theorem tikz_svg_composes
    latex_dir latex convert_dir converter line cell w pdf_content w1 :
  Tikz.format (Tikz.parse_argstring line) = Tikz.choice_svg →
  Tikz.run_latex latex_dir latex (tikz_document (Tikz.parse_argstring line) cell)
    Tikz.DEFAULT_PDFLATEX w = (Return pdf_content, w1) →
  (∀ filename, Tikz.save_target (Tikz.parse_argstring line) = Some filename →
               writable (files w1) (fspath filename) = true) →
  let w2 :=
    match Tikz.save_target (Tikz.parse_argstring line) with
    | Some filename =>
        {| files := <[fspath filename := File pdf_content]> (files w1);
           trace := trace w1 ++ [Wrote (fspath filename) pdf_content] |}
    | None => w1
    end in
  (∀ svg w3,
     Tikz.convert_pdf2svg convert_dir converter pdf_content Tikz.DEFAULT_PDF2SVG w2
       = (Return svg, w3) →
     Tikz.tikz latex_dir latex convert_dir converter line cell w
     = (Return None,
        record (Publish [(lit "image/svg+xml", svg)] [(lit "isolated", lit "true")]) w3)) ∧
  (∀ e w3,
     Tikz.convert_pdf2svg convert_dir converter pdf_content Tikz.DEFAULT_PDF2SVG w2
       = (Raise e, w3) →
     Tikz.tikz latex_dir latex convert_dir converter line cell w = (Raise e, w3)).
Proof.
  intros Hsvg Hlatex Hwritable w2.
  assert (Hsaved :
    (match Tikz.save_target (Tikz.parse_argstring line) with
     | Some filename =>
         open_wb (fspath filename) ;;; file_write (fspath filename) pdf_content
     | None => ret tt
     end) w1 = (Return tt, w2)).
  { subst w2. destruct (Tikz.save_target (Tikz.parse_argstring line)) as [filename|].
    - rewrite save_step, (Hwritable filename eq_refl), insert_insert_eq. reflexivity.
    - reflexivity. }
  split.
  - intros svg w3 Hconvert. rewrite tikz_unfolded. unfold bind at 1. rewrite Hlatex.
    unfold tikz_after_latex. unfold bind at 1. rewrite Hsaved, Hsvg.
    cbn [Tikz.Format_of_choice]. unfold bind at 1. rewrite Hconvert. reflexivity.
  - intros e w3 Hconvert. rewrite tikz_unfolded. unfold bind at 1. rewrite Hlatex.
    unfold tikz_after_latex. unfold bind at 1. rewrite Hsaved, Hsvg.
    cbn [Tikz.Format_of_choice]. unfold bind at 1. rewrite Hconvert. reflexivity.
Qed.

Lemma tikz_svg_composes_witness :
  let line := short_line (Some Tikz.choice_svg) None in
  let latex_run :=
    Tikz.run_latex tmpdir produces_all
      (tikz_document (Tikz.parse_argstring line) (lit "\draw (0,0) -- (1,1);"))
      Tikz.DEFAULT_PDFLATEX empty_world in
  let convert_run :=
    Tikz.convert_pdf2svg tmpdir' converts_ok (blit "%PDF-1.5")
      Tikz.DEFAULT_PDF2SVG latex_run.2 in
  Tikz.format (Tikz.parse_argstring line) = Tikz.choice_svg ∧
  latex_run = (Return (blit "%PDF-1.5"), latex_run.2) ∧
  (∀ filename, Tikz.save_target (Tikz.parse_argstring line) = Some filename →
               writable (files latex_run.2) (fspath filename) = true) ∧
  convert_run = (Return (lit "<svg/>"), convert_run.2) ∧
  Tikz.tikz tmpdir produces_all tmpdir' converts_ok line
    (lit "\draw (0,0) -- (1,1);") empty_world
  = (Return None,
     record (Publish [(lit "image/svg+xml", lit "<svg/>")]
               [(lit "isolated", lit "true")]) convert_run.2).
Proof.
  intros line latex_run convert_run.
  assert (Hlatex : latex_run = (Return (blit "%PDF-1.5"), latex_run.2))
    by (vm_compute; reflexivity).
  assert (Hnosave : ∀ filename,
            Tikz.save_target (Tikz.parse_argstring line) = Some filename →
            writable (files latex_run.2) (fspath filename) = true)
    by (intros filename H; discriminate H).
  assert (Hconvert : convert_run = (Return (lit "<svg/>"), convert_run.2))
    by (vm_compute; reflexivity).
  split; [reflexivity|]. split; [exact Hlatex|]. split; [exact Hnosave|].
  split; [exact Hconvert|].
  destruct (tikz_svg_composes tmpdir produces_all tmpdir' converts_ok line
              (lit "\draw (0,0) -- (1,1);") empty_world (blit "%PDF-1.5")
              latex_run.2 eq_refl Hlatex Hnosave) as [Hpublishes _].
  apply Hpublishes. exact Hconvert.
Defined.

(** X18: when the magic line names a file to save to and the magic
    returns, the file holds exactly the PDF that [run_latex] returned,
    given that the converter does not touch it and that it does not lie
    in the converter's temporary directory. *)
Theorem tikz_saves_the_pdf
    latex_dir latex convert_dir converter line cell w filename v w' :
  Tikz.given_save line = Some filename →
  filename ≠ [] →
  Tikz.tikz latex_dir latex convert_dir converter line cell w = (Return v, w') →
  ¬ convert_dir `prefix_of` fspath filename →
  leaves_alone converter (fspath filename) →
  ∃ pdf_content w1,
    Tikz.run_latex latex_dir latex (tikz_document (Tikz.parse_argstring line) cell)
      Tikz.DEFAULT_PDFLATEX w = (Return pdf_content, w1) ∧
    readable (files w') (fspath filename) = Some pdf_content ∧
    In (Wrote (fspath filename) pdf_content) (trace w').
Proof.
  intros Hsave Hnonempty Hrun Hout Halone.
  rewrite tikz_unfolded in Hrun. unfold bind at 1 in Hrun.
  destruct (Tikz.run_latex latex_dir latex _ Tikz.DEFAULT_PDFLATEX w)
    as [[pdf_content|e] w1]; [|discriminate Hrun].
  exists pdf_content, w1. split; [reflexivity|].
  assert (Htarget : Tikz.save_target (Tikz.parse_argstring line) = Some filename).
  { unfold Tikz.save_target, Tikz.parse_argstring. cbn [Tikz.save]. rewrite Hsave.
    destruct filename; [contradiction|reflexivity]. }
  unfold tikz_after_latex in Hrun. rewrite Htarget in Hrun.
  unfold bind at 1 in Hrun. rewrite save_step in Hrun.
  destruct (writable (files w1) (fspath filename)); [|discriminate Hrun].
  set (w2 := {| files := <[fspath filename := File pdf_content]>
                           (<[fspath filename := File []]> (files w1));
                trace := trace w1 ++ [Wrote (fspath filename) pdf_content] |}) in Hrun.
  assert (Hsaved : readable (files w2) (fspath filename) = Some pdf_content).
  { unfold readable. subst w2. cbn [files]. rewrite lookup_insert_eq. reflexivity. }
  assert (Hwrote : In (Wrote (fspath filename) pdf_content) (trace w2)).
  { subst w2. cbn [trace]. apply in_or_app. right. left. reflexivity. }
  destruct (Tikz.format (Tikz.parse_argstring line)); cbn [Tikz.Format_of_choice] in Hrun;
    [discriminate Hrun|].
  unfold bind at 1 in Hrun.
  destruct (convert_pdf2svg_events convert_dir converter pdf_content
              Tikz.DEFAULT_PDF2SVG w2) as (events3 & Htrace3).
  pose proof (convert_pdf2svg_frame convert_dir converter pdf_content
                Tikz.DEFAULT_PDF2SVG w2 (fspath filename) Hout Halone) as Hframe.
  destruct (Tikz.convert_pdf2svg convert_dir converter pdf_content
              Tikz.DEFAULT_PDF2SVG w2) as [[svg|e] w3]; [|discriminate Hrun].
  cbn [fst snd] in *. injection Hrun as <- <-. cbn [record files trace]. split.
  - unfold readable in *. rewrite Hframe. exact Hsaved.
  - apply in_or_app. left. rewrite Htrace3. apply in_or_app. left. exact Hwrote.
Qed.

Lemma tikz_saves_the_pdf_witness :
  let run := Tikz.tikz tmpdir produces_all tmpdir' converts_ok
               (short_line None (Some (lit "out/fig.pdf")))
               (lit "\draw (0,0) -- (1,1);")
               {| files := {[ [lit "out"] := Dir ]}; trace := [] |} in
  Tikz.given_save (short_line None (Some (lit "out/fig.pdf"))) = Some (lit "out/fig.pdf") ∧
  lit "out/fig.pdf" ≠ [] ∧
  run = (Return None, run.2) ∧
  ¬ tmpdir' `prefix_of` fspath (lit "out/fig.pdf") ∧
  leaves_alone converts_ok (fspath (lit "out/fig.pdf")) ∧
  ∃ pdf_content,
    readable (files run.2) (fspath (lit "out/fig.pdf")) = Some pdf_content.
Proof.
  intros run.
  assert (Hrun : run = (Return None, run.2)) by (vm_compute; reflexivity).
  assert (Hout : ¬ tmpdir' `prefix_of` fspath (lit "out/fig.pdf")).
  { intros [k Hk]. vm_compute in Hk. discriminate Hk. }
  assert (Halone : leaves_alone converts_ok (fspath (lit "out/fig.pdf"))).
  { intros fs. unfold writes. rewrite lookup_insert_ne; [reflexivity|].
    intros H. vm_compute in H. discriminate H. }
  split; [reflexivity|]. split; [discriminate|]. split; [exact Hrun|].
  split; [exact Hout|]. split; [exact Halone|].
  destruct (tikz_saves_the_pdf tmpdir produces_all tmpdir' converts_ok
              (short_line None (Some (lit "out/fig.pdf")))
              (lit "\draw (0,0) -- (1,1);")
              {| files := {[ [lit "out"] := Dir ]}; trace := [] |}
              (lit "out/fig.pdf") None run.2 eq_refl ltac:(discriminate) Hrun Hout Halone)
    as (pdf_content & _ & _ & Hread & _).
  exists pdf_content. exact Hread.
Defined.

Example tikz_saves_into_directory :
  let run := Tikz.tikz tmpdir produces_all tmpdir' converts_ok
               (short_line None (Some (lit "out/fig.pdf")))
               (lit "\draw (0,0) -- (1,1);")
               {| files := {[ [lit "out"] := Dir ]}; trace := [] |} in
  files run.2 !! [lit "out"; lit "fig.pdf"] = Some (File (blit "%PDF-1.5")).
Proof. vm_compute. reflexivity. Qed.

(** ** The messages of the exceptions *)

Lemma lstrip_split s :
  ∃ lead, s = lead ++ lstrip s ∧ Forall (fun c => isspace c = true) lead ∧
          ∀ c, head (lstrip s) = Some c → isspace c = false.
Proof.
  induction s as [|x s (lead & Hs & Hlead & Hhead)].
  - exists []. repeat split; [constructor | discriminate].
  - cbn [lstrip]. destruct (isspace x) eqn:Hx.
    + exists (x :: lead). split; [cbn; congruence|]. split; [|exact Hhead].
      constructor; assumption.
    + exists []. split; [reflexivity|]. split; [constructor|].
      intros c [= <-]. exact Hx.
Qed.

Lemma last_rev_head {A} (l : list A) : last (rev l) = head l.
Proof. destruct l as [|x l]; [reflexivity|]. cbn [rev head]. apply last_snoc. Qed.

Lemma rstrip_split s :
  ∃ trail, s = rstrip s ++ trail ∧ Forall (fun c => isspace c = true) trail ∧
           ∀ c, last (rstrip s) = Some c → isspace c = false.
Proof.
  destruct (lstrip_split (rev s)) as (lead & Hs & Hlead & Hhead).
  exists (rev lead). unfold rstrip. split; [|split].
  - rewrite <- rev_app_distr, <- Hs, rev_involutive. reflexivity.
  - apply Forall_forall. intros c Hc. rewrite Forall_forall in Hlead.
    apply Hlead. apply list_elem_of_In. apply list_elem_of_In in Hc.
    apply in_rev. exact Hc.
  - intros c. rewrite last_rev_head. apply Hhead.
Qed.

Lemma strip_split s :
  ∃ lead trail,
    s = lead ++ strip s ++ trail ∧
    Forall (fun c => isspace c = true) lead ∧
    Forall (fun c => isspace c = true) trail ∧
    (∀ c, head (strip s) = Some c → isspace c = false) ∧
    (∀ c, last (strip s) = Some c → isspace c = false).
Proof.
  destruct (lstrip_split s) as (lead & Hs & Hlead & Hhead).
  destruct (rstrip_split (lstrip s)) as (trail & Hm & Htrail & Hlast).
  exists lead, trail. unfold strip. split; [|split; [|split; [|split]]].
  - rewrite <- Hm. exact Hs.
  - exact Hlead.
  - exact Htrail.
  - intros c Hc. apply Hhead. rewrite Hm.
    destruct (rstrip (lstrip s)); [discriminate Hc|exact Hc].
  - exact Hlast.
Qed.

(** X19: the message of an exception shows its diagnostic and its source
    with whitespace removed at both ends and nothing else changed.  The
    sections of the message are the labels [[command]], [[returncode]],
    [[stderr]] and, except for [ConvertError], [[code]], each followed by
    its text on the next line; [GraphvizError] and [LatexError] print
    alike. *)
Theorem messages_strip_only_the_ends command returncode stderr code :
  ∃ lead shown trail lead' source trail',
    stderr = lead ++ shown ++ trail ∧
    code = lead' ++ source ++ trail' ∧
    Forall (fun c => isspace c = true) (lead ++ trail ++ lead' ++ trail') ∧
    (∀ c, head shown = Some c ∨ last shown = Some c ∨
          head source = Some c ∨ last source = Some c → isspace c = false) ∧
    __str__ (GraphvizError command returncode stderr code)
    = Some (join [10] [lit "[command]"; join (lit " ") command;
                       lit "[returncode]"; str_of_int returncode;
                       lit "[stderr]"; shown; lit "[code]"; source]) ∧
    __str__ (LatexError command returncode stderr code)
    = __str__ (GraphvizError command returncode stderr code) ∧
    __str__ (ConvertError command returncode stderr)
    = Some (join [10] [lit "[command]"; join (lit " ") command;
                       lit "[returncode]"; str_of_int returncode;
                       lit "[stderr]"; shown]).
Proof.
  destruct (strip_split stderr) as (lead & trail & Hs & Hlead & Htrail & Hhead & Hlast).
  destruct (strip_split code) as (lead' & trail' & Hc & Hlead' & Htrail' & Hhead' & Hlast').
  exists lead, (strip stderr), trail, lead', (strip code), trail'.
  split; [exact Hs|]. split; [exact Hc|]. split; [|split].
  - repeat (apply Forall_app; split); assumption.
  - intros c [H|[H|[H|H]]]; eauto.
  - repeat split.
Qed.

Example message_of_a_failed_conversion :
  __str__ (ConvertError [lit "pdf2svg"; lit "inpdf.pdf"; lit "outsvg.svg"] (-1) [])
  = Some (lit "[command]
pdf2svg inpdf.pdf outsvg.svg
[returncode]
-1
[stderr]
").
Proof. vm_compute. reflexivity. Qed.

Example message_strips_log :
  __str__ (LatexError [lit "pdflatex"; lit "code.tex"] 1
             (lit "
! Undefined control sequence.
") (lit "  \foo  "))
  = Some (lit "[command]
pdflatex code.tex
[returncode]
1
[stderr]
! Undefined control sequence.
[code]
\foo").
Proof. vm_compute. reflexivity. Qed.
